(** * Prompt assembly of the chain-of-thought completion agent runner

    A shallow embedding of [api/core/agent/cot_completion_agent_runner.py]
    (class [CotCompletionAgentRunner]) and the properties of its three
    methods [_organize_instruction_prompt], [_organize_historic_prompt] and
    [_organize_prompt_messages].

    Python strings are modelled by [string]; a character is one of the 256
    code points of [ascii].  A raised exception is a value of the error
    type [exn], threaded through [result]. *)

From Stdlib Require Import List ZArith Bool Arith Lia DecimalString Ascii String.
Import ListNotations.

Open Scope string_scope.

(* ================================================================== *)
(** * Python string primitives *)
(* ================================================================== *)

Module PyStr.

(** The line feed character, written ["\n"] in the source. *)
Definition LF : string := String (ascii_of_nat 10) EmptyString.

(** [sep.join(items)] *)
Definition join (sep : string) (items : list string) : string :=
  String.concat sep items.

(** [str.replace] with a non-empty [old]: the text is scanned from the left;
    where [old] starts, [new] is emitted and the scan resumes after the
    occurrence ([skip] counts the characters of the occurrence still to be
    passed over), elsewhere the character is copied. *)
Fixpoint replace_scan (old new : string) (skip : nat) (s : string) : string :=
  match s with
  | EmptyString => EmptyString
  | String c s' =>
      match skip with
      | S k => replace_scan old new k s'
      | O =>
          if prefix old (String c s')
          then new ++ replace_scan old new (pred (length old)) s'
          else String c (replace_scan old new 0 s')
      end
  end.

(** [str.replace] with an empty [old]: [new] is put before every character
    and at the end. *)
Fixpoint intersperse (new s : string) : string :=
  match s with
  | EmptyString => new
  | String c s' => new ++ String c (intersperse new s')
  end.

(** [s.replace(old, new)]: every non-overlapping occurrence, from the left. *)
Definition replace (s old new : string) : string :=
  match old with
  | EmptyString => intersperse new s
  | String _ _ => replace_scan old new 0 s
  end.

(** [sub in s] *)
Fixpoint contains (s sub : string) : bool :=
  prefix sub s ||
  match s with
  | EmptyString => false
  | String _ s' => contains s' sub
  end.




(** [str(x)] / the [{x}] of an f-string for an optional string: [None] is
    printed as the word None. *)
Definition format (x : option string) : string :=
  match x with
  | Some s => s
  | None => "None"
  end.

(** Truth value of an optional string in a condition ([if x:]). *)
Definition truthy (x : option string) : bool :=
  match x with
  | Some (String _ _) => true
  | _ => false
  end.

End PyStr.

(* ================================================================== *)
(** * JSON values and [json.dumps] *)
(* ================================================================== *)

Module Json.

#[local] Set Warnings "-register-all".

(** The JSON-compatible values [jsonable_encoder] produces (floating point
    numbers are left out).  A [dict] keeps its insertion order, so an object
    is an association list. *)
Inductive json : Type :=
| JNull
| JBool (b : bool)
| JInt (n : Z)
| JStr (s : string)
| JArr (items : list json)
| JObj (fields : list (string * json)).

Definition hex_digit (n : nat) : ascii :=
  match n with
  | 0 => "0" | 1 => "1" | 2 => "2" | 3 => "3" | 4 => "4" | 5 => "5"
  | 6 => "6" | 7 => "7" | 8 => "8" | 9 => "9" | 10 => "a" | 11 => "b"
  | 12 => "c" | 13 => "d" | 14 => "e" | _ => "f"
  end%char.

(** The double quote and the backslash. *)
Definition quote : string := String (ascii_of_nat 34) EmptyString.
Definition backslash : string := String (ascii_of_nat 92) EmptyString.

(** The escape of one character with [ensure_ascii=True]: the quote and the
    backslash are escaped, the printable range space..tilde is kept, the
    control characters with a short form use it, and the rest is written
    as a backslash, [u00] and two hexadecimal digits. *)
Definition escape_char (c : ascii) : string :=
  let n := nat_of_ascii c in
  if Nat.eqb n 34 then backslash ++ quote
  else if Nat.eqb n 92 then backslash ++ backslash
  else if Nat.eqb n 10 then backslash ++ "n"
  else if Nat.eqb n 13 then backslash ++ "r"
  else if Nat.eqb n 9 then backslash ++ "t"
  else if Nat.eqb n 8 then backslash ++ "b"
  else if Nat.eqb n 12 then backslash ++ "f"
  else if (32 <=? n)%nat && (n <=? 126)%nat then String c EmptyString
  else backslash ++ "u00" ++
       String (hex_digit (n / 16)) (String (hex_digit (n mod 16)) EmptyString).

Fixpoint escape (s : string) : string :=
  match s with
  | EmptyString => EmptyString
  | String c s' => escape_char c ++ escape s'
  end.

(** A JSON string literal. *)
Definition dumps_str (s : string) : string := quote ++ escape s ++ quote.

(** A Python [int] in decimal. *)
Definition dumps_int (n : Z) : string := NilZero.string_of_int (Z.to_int n).

(** [json.dumps(v)] with the default separators [", "] and [": "]. *)
Fixpoint dumps (v : json) : string :=
  match v with
  | JNull => "null"
  | JBool true => "true"
  | JBool false => "false"
  | JInt n => dumps_int n
  | JStr s => dumps_str s
  | JArr items => "[" ++ PyStr.join ", " (map dumps items) ++ "]"
  | JObj fields =>
      "{" ++ PyStr.join ", "
               (map (fun kv => let '(k, x) := kv in
                               dumps_str k ++ ": " ++ dumps x) fields)
          ++ "}"
  end.

End Json.

(* ================================================================== *)
(** * Entities *)
(* ================================================================== *)

(** Exceptions and results of fallible methods. *)
Inductive exn : Type :=
| ValueError (msg : string).

Inductive result (A : Type) : Type :=
| Return (a : A)
| Raise (e : exn).

Arguments Return {A} a.
Arguments Raise {A} e.

Definition bind {A B : Type} (m : result A) (k : A -> result B) : result B :=
  match m with
  | Return a => k a
  | Raise e => Raise e
  end.

Notation "x <- m ;; k" := (bind m (fun x => k))
  (at level 61, m at next level, right associativity).

(** Modelled from the spec: the message classes are declared in
    [core.model_runtime.entities.message_entities].  A content part is a
    text part or a part of another kind (an image, say); both carry
    [data], and only the text variant is rendered. *)
Inductive PromptMessageContent : Type :=
| TextPromptMessageContent (data : string)
| ImagePromptMessageContent (data : string).

(** Modelled from the spec: [message.content] is polymorphic.  These are
    the runtime shapes the [isinstance] probes of the renderer tell apart:
    [None], a [str], a sequence of parts, or one part on its own. *)
Inductive MessageContent : Type :=
| ContentNone
| ContentStr (s : string)
| ContentSeq (parts : list PromptMessageContent)
| ContentPart (part : PromptMessageContent).

(** Modelled from the spec: the message variants, by class.  The renderer
    reads [content] only; [SystemPromptMessage] stands for the variants it
    does not recognize. *)
Inductive PromptMessage : Type :=
| UserPromptMessage (content : MessageContent)
| AssistantPromptMessage (content : MessageContent)
| ToolPromptMessage (content : MessageContent)
| SystemPromptMessage (content : MessageContent).

(** Modelled from the spec: the class [PromptMessageTool] is declared in
    [core.model_runtime.entities.message_entities]; a tool has a name, a
    description and a parameter schema (a [dict], as the fixtures of the
    unit tests build it). *)
Record PromptMessageTool : Type := {
  name : string;
  description : string;
  parameters : list (string * Json.json)
}.

(** Modelled from the spec: [jsonable_encoder] is declared in
    [core.model_runtime.utils.encoders]; a tool becomes one object with all
    its fields, name, description, parameter schema, in their plain JSON
    representation. *)
Definition jsonable_encoder_tool (tool : PromptMessageTool) : Json.json :=
  Json.JObj [ ("name", Json.JStr (name tool));
              ("description", Json.JStr (description tool));
              ("parameters", Json.JObj (parameters tool)) ].

(** Modelled from the spec: [jsonable_encoder] on the catalog gives the
    array of the tool objects, in catalog order. *)
Definition jsonable_encoder (tools : list PromptMessageTool) : Json.json :=
  Json.JArr (map jsonable_encoder_tool tools).

(** The structured form of an action: a tool name and its input. *)
Record Action : Type := {
  action_name : string;
  action_input : Json.json
}.

(** Modelled from the spec: the class [AgentScratchpadUnit] is declared in
    [core.agent.entities].  The spec gives [thought] as a string and the
    other text fields as optional; here each of the four may be [None],
    which covers both. *)
Record AgentScratchpadUnit : Type := {
  agent_response : option string;
  thought : option string;
  action_str : option string;
  observation : option string;
  action : option Action
}.

(** Modelled from the spec: the configuration the runner reads, an
    optional agent entity with an optional prompt entity that holds the
    template [first_prompt]. *)
Record AgentPromptEntity : Type := {
  first_prompt : string;
  next_iteration : string
}.

Record AgentEntity : Type := {
  prompt : option AgentPromptEntity
}.

Record AgentChatAppConfig : Type := {
  agent : option AgentEntity
}.

(** The state of the runner the three methods read through [self]. *)
Record CotCompletionAgentRunner : Type := {
  app_config : AgentChatAppConfig;
  _instruction : string;
  _prompt_messages_tools : list PromptMessageTool;
  history_prompt_messages : option (list PromptMessage);
  _agent_scratchpad : option (list AgentScratchpadUnit);
  _query : string
}.

(* ================================================================== *)
(** * The methods of [CotCompletionAgentRunner] *)
(* ================================================================== *)

Import PyStr.

(** [x or []] *)
Definition or_empty {A : Type} (x : option (list A)) : list A :=
  match x with
  | Some (a :: l) => a :: l
  | _ => []
  end.

(** [[content.data for content in parts
      if isinstance(content, TextPromptMessageContent)]] *)
Fixpoint text_parts (parts : list PromptMessageContent) : list string :=
  match parts with
  | [] => []
  | TextPromptMessageContent data :: rest => data :: text_parts rest
  | ImagePromptMessageContent _ :: rest => text_parts rest
  end.

Definition _organize_instruction_prompt (self : CotCompletionAgentRunner)
  : result string :=
  match agent (app_config self) with
  | None => Raise (ValueError "Agent configuration is not set")
  | Some agent_entity =>
      match prompt agent_entity with
      | None => Raise (ValueError "prompt entity is not set")
      | Some prompt_entity =>
          let first_prompt := first_prompt prompt_entity in
          let system_prompt :=
            replace
              (replace
                 (replace first_prompt "{{instruction}}" (_instruction self))
                 "{{tools}}"
                 (Json.dumps (jsonable_encoder (_prompt_messages_tools self))))
              "{{tool_names}}"
              (join ", " (map name (_prompt_messages_tools self))) in
          Return system_prompt
      end
  end.

(** The body of the loop of [_organize_historic_prompt]: the transcript so
    far and the next message give the transcript after it. *)
Definition historic_step (historic_prompt : string) (message : PromptMessage)
  : string :=
  match message with
  | UserPromptMessage content =>
      match content with
      | ContentNone => historic_prompt
      | ContentStr s => historic_prompt ++ "Question: " ++ s ++ LF ++ LF
      | ContentSeq parts =>
          let content_text := join " " (text_parts parts) in
          historic_prompt ++ "Question: " ++ content_text ++ LF ++ LF
      | ContentPart _ => historic_prompt
      end
  | AssistantPromptMessage content =>
      match content with
      | ContentNone => historic_prompt
      | ContentStr s => historic_prompt ++ s ++ LF ++ LF
      | ContentSeq parts =>
          let content_text := join " " (text_parts parts) in
          historic_prompt ++ content_text ++ LF ++ LF
      | ContentPart (TextPromptMessageContent data) =>
          historic_prompt ++ data ++ LF ++ LF
      | ContentPart (ImagePromptMessageContent _) => historic_prompt
      end
  | ToolPromptMessage content =>
      match content with
      | ContentNone => historic_prompt
      | ContentStr s => historic_prompt ++ "Tool Response: " ++ s ++ LF ++ LF
      | ContentPart (TextPromptMessageContent data) =>
          historic_prompt ++ "Tool Response: " ++ data ++ LF ++ LF
      | ContentSeq _ => historic_prompt
      | ContentPart (ImagePromptMessageContent _) => historic_prompt
      end
  | SystemPromptMessage _ => historic_prompt
  end.

Definition _organize_historic_prompt (self : CotCompletionAgentRunner)
  : string :=
  let historic_prompt_messages := or_empty (history_prompt_messages self) in
  fold_left historic_step historic_prompt_messages EmptyString.

Section Scratchpad.

(** The method [AgentScratchpadUnit.is_final] is declared in
    [core.agent.entities]; the renderer only branches on its result. *)
Variable is_final : AgentScratchpadUnit -> bool.

(** The body of the scratchpad loop of [_organize_prompt_messages]. *)
Definition scratchpad_step (assistant_prompt : string)
  (unit : AgentScratchpadUnit) : string :=
  if is_final unit then
    assistant_prompt ++ "Final Answer: " ++ format (agent_response unit)
  else
    let assistant_prompt :=
      assistant_prompt ++ "Thought: " ++ format (thought unit) ++ LF ++ LF in
    let assistant_prompt :=
      if truthy (action_str unit)
      then assistant_prompt ++ "Action: " ++ format (action_str unit)
                            ++ LF ++ LF
      else assistant_prompt in
    if truthy (observation unit)
    then assistant_prompt ++ "Observation: " ++ format (observation unit)
                          ++ LF ++ LF
    else assistant_prompt.

(** The scratchpad loop of [_organize_prompt_messages]:
    [for unit in agent_scratchpad or []]. *)
Definition organize_scratchpad
  (agent_scratchpad : option (list AgentScratchpadUnit)) : string :=
  fold_left scratchpad_step (or_empty agent_scratchpad) EmptyString.

Definition _organize_prompt_messages (self : CotCompletionAgentRunner)
  : result (list PromptMessage) :=
  system_prompt <- _organize_instruction_prompt self ;;
  let historic_prompt := _organize_historic_prompt self in
  let agent_scratchpad := _agent_scratchpad self in
  let assistant_prompt := organize_scratchpad agent_scratchpad in
  let query_prompt := "Question: " ++ _query self in
  let prompt :=
    replace
      (replace
         (replace system_prompt "{{historic_messages}}" historic_prompt)
         "{{agent_scratchpad}}" assistant_prompt)
      "{{query}}" query_prompt in
  Return [UserPromptMessage (ContentSeq [TextPromptMessageContent prompt])].

End Scratchpad.

(* ================================================================== *)
(** * What the claims speak of *)
(* ================================================================== *)

(** The concatenation of a list of texts, in order. *)
Definition concat_all (blocks : list string) : string :=
  String.concat EmptyString blocks.

(** The block one message adds to the history transcript. *)
Definition message_block (message : PromptMessage) : string :=
  historic_step EmptyString message.

(** The text-part values of a sequence of parts, the other parts skipped. *)
Definition is_text (part : PromptMessageContent) : bool :=
  match part with
  | TextPromptMessageContent _ => true
  | ImagePromptMessageContent _ => false
  end.

Definition part_data (part : PromptMessageContent) : string :=
  match part with
  | TextPromptMessageContent data => data
  | ImagePromptMessageContent data => data
  end.

Definition text_values (parts : list PromptMessageContent) : list string :=
  map part_data (filter is_text parts).

(** The rendering of one scratchpad unit, as the specification words it. *)
Definition unit_rendering (is_final : AgentScratchpadUnit -> bool)
  (unit : AgentScratchpadUnit) : string :=
  if is_final unit then "Final Answer: " ++ format (agent_response unit)
  else
    ("Thought: " ++ format (thought unit) ++ LF ++ LF)
    ++ (if truthy (action_str unit)
        then "Action: " ++ format (action_str unit) ++ LF ++ LF
        else EmptyString)
    ++ (if truthy (observation unit)
        then "Observation: " ++ format (observation unit) ++ LF ++ LF
        else EmptyString).

(** The rendering of a scratchpad: the unit renderings, concatenated in
    scratchpad order. *)
Definition scratchpad_rendering (is_final : AgentScratchpadUnit -> bool)
  (units : list AgentScratchpadUnit) : string :=
  concat_all (map (unit_rendering is_final) units).

(** One JSON object per tool, with its name, its description and its
    parameter schema. *)
Definition tool_object (tool : PromptMessageTool) : string :=
  "{" ++ Json.dumps_str "name" ++ ": " ++ Json.dumps_str (name tool)
  ++ ", " ++ Json.dumps_str "description" ++ ": "
  ++ Json.dumps_str (description tool)
  ++ ", " ++ Json.dumps_str "parameters" ++ ": "
  ++ Json.dumps (Json.JObj (parameters tool))
  ++ "}".

(** The passes of [_organize_instruction_prompt] for [{{tools}}] and
    [{{tool_names}}], which follow the pass for [{{instruction}}]. *)
Definition tools_passes (text : string) (tools : list PromptMessageTool)
  : string :=
  replace
    (replace text "{{tools}}" (Json.dumps (jsonable_encoder tools)))
    "{{tool_names}}" (join ", " (map name tools)).

(** The passes of [_organize_prompt_messages] for [{{agent_scratchpad}}]
    and [{{query}}], which follow the pass for [{{historic_messages}}]. *)
Definition scratchpad_query_passes (text assistant_prompt query_prompt : string)
  : string :=
  replace (replace text "{{agent_scratchpad}}" assistant_prompt)
    "{{query}}" query_prompt.

(** ** Tokens whose occurrences cannot overlap *)

(** [suffixes_clear t rest]: no non-empty suffix of [rest] is a prefix of
    [t] or has [t] as a prefix. *)
Fixpoint suffixes_clear (t rest : string) : bool :=
  match rest with
  | EmptyString => true
  | String _ rest' =>
      negb (prefix rest t) && negb (prefix t rest) && suffixes_clear t rest'
  end.

(** [clear_of old t]: in no text can an occurrence of [old] that starts
    before an occurrence of [t] reach into it.  With [t] the token [old]
    itself, this says that two occurrences of [old] never overlap. *)
Definition clear_of (old t : string) : bool :=
  match old with
  | EmptyString => false
  | String _ rest => suffixes_clear t rest
  end.

(* ================================================================== *)
(** * The fixtures of the unit tests *)
(* ================================================================== *)

Module Fixtures.

Definition first_prompt_template : string :=
  "System: You are a helpful AI assistant." ++ LF ++ LF
  ++ "Instructions: {{instruction}}" ++ LF ++ LF
  ++ "Available tools: {{tools}}" ++ LF ++ LF
  ++ "Tool names: {{tool_names}}" ++ LF ++ LF
  ++ "Chat history:" ++ LF ++ "{{historic_messages}}" ++ LF ++ LF
  ++ "Current conversation:" ++ LF ++ "{{agent_scratchpad}}" ++ LF ++ LF
  ++ "{{query}}".

Definition config_with (template : string) : AgentChatAppConfig :=
  {| agent := Some {| prompt := Some {| first_prompt := template;
                                         next_iteration := EmptyString |} |} |}.

Definition mock_app_config : AgentChatAppConfig :=
  config_with first_prompt_template.

Definition string_parameter (key text : string) : list (string * Json.json) :=
  [ ("type", Json.JStr "object");
    ("properties",
     Json.JObj [ (key, Json.JObj [ ("type", Json.JStr "string");
                                   ("description", Json.JStr text) ]) ]);
    ("required", Json.JArr [Json.JStr key]) ].

Definition calculator : PromptMessageTool :=
  {| name := "calculator";
     description := "A calculator tool for basic math operations";
     parameters :=
       string_parameter "expression" "The math expression to evaluate" |}.

Definition weather : PromptMessageTool :=
  {| name := "weather";
     description := "A tool to get weather information";
     parameters :=
       string_parameter "location" "The location to get weather for" |}.

Definition mock_prompt_tools : list PromptMessageTool := [calculator; weather].

Definition base_runner : CotCompletionAgentRunner :=
  {| app_config := mock_app_config;
     _instruction := "Help the user with their questions";
     _prompt_messages_tools := mock_prompt_tools;
     history_prompt_messages := None;
     _agent_scratchpad := Some [];
     _query := "What is 2+2?" |}.

(** [base_runner] with another history, scratchpad or configuration. *)
Definition with_history (self : CotCompletionAgentRunner)
  (messages : option (list PromptMessage)) : CotCompletionAgentRunner :=
  {| app_config := app_config self;
     _instruction := _instruction self;
     _prompt_messages_tools := _prompt_messages_tools self;
     history_prompt_messages := messages;
     _agent_scratchpad := _agent_scratchpad self;
     _query := _query self |}.

Definition with_scratchpad (self : CotCompletionAgentRunner)
  (units : option (list AgentScratchpadUnit)) : CotCompletionAgentRunner :=
  {| app_config := app_config self;
     _instruction := _instruction self;
     _prompt_messages_tools := _prompt_messages_tools self;
     history_prompt_messages := history_prompt_messages self;
     _agent_scratchpad := units;
     _query := _query self |}.

Definition with_config (self : CotCompletionAgentRunner)
  (config : AgentChatAppConfig) : CotCompletionAgentRunner :=
  {| app_config := config;
     _instruction := _instruction self;
     _prompt_messages_tools := _prompt_messages_tools self;
     history_prompt_messages := history_prompt_messages self;
     _agent_scratchpad := _agent_scratchpad self;
     _query := _query self |}.

Definition with_instruction (self : CotCompletionAgentRunner)
  (instruction : string) : CotCompletionAgentRunner :=
  {| app_config := app_config self;
     _instruction := instruction;
     _prompt_messages_tools := _prompt_messages_tools self;
     history_prompt_messages := history_prompt_messages self;
     _agent_scratchpad := _agent_scratchpad self;
     _query := _query self |}.

Definition with_tools (self : CotCompletionAgentRunner)
  (tools : list PromptMessageTool) : CotCompletionAgentRunner :=
  {| app_config := app_config self;
     _instruction := _instruction self;
     _prompt_messages_tools := tools;
     history_prompt_messages := history_prompt_messages self;
     _agent_scratchpad := _agent_scratchpad self;
     _query := _query self |}.

(** The history of [test_organize_historic_prompt_with_messages]. *)
Definition weather_history : list PromptMessage :=
  [ UserPromptMessage (ContentStr "What's the weather?");
    AssistantPromptMessage (ContentStr "Let me check that for you.");
    ToolPromptMessage (ContentStr "The weather is sunny.");
    AssistantPromptMessage (ContentStr "It's sunny today!") ].

(** The user message of
    [test_organize_historic_prompt_with_non_text_content]. *)
Definition two_part_question : MessageContent :=
  ContentSeq [ TextPromptMessageContent "What's the weather like?";
               TextPromptMessageContent "And temperature too?" ].

(** The scratchpad unit of [test_organize_prompt_messages_complete]. *)
Definition calculator_action_str : string :=
  Json.dumps
    (Json.JObj [ ("action", Json.JStr "calculator");
                 ("action_input",
                  Json.JObj [("expression", Json.JStr "2+2")]) ]).

Definition calculator_unit : AgentScratchpadUnit :=
  {| agent_response := Some "Let me calculate that";
     thought := Some "I should use the calculator";
     action_str := Some calculator_action_str;
     observation := Some "4";
     action := Some {| action_name := "calculator";
                       action_input :=
                         Json.JObj [("expression", Json.JStr "2+2")] |} |}.

Definition answer_unit : AgentScratchpadUnit :=
  {| agent_response := Some "2+2 is 4";
     thought := Some "I know the answer";
     action_str := None;
     observation := None;
     action := None |}.


(** A runner whose template holds the instruction token alone. *)
Definition single_token_runner : CotCompletionAgentRunner :=
  with_config base_runner
    (config_with ("Instructions: {{instruction}}" ++ LF)).

(** A runner whose instruction and whose history quote placeholder
    tokens. *)
Definition quoting_runner : CotCompletionAgentRunner :=
  with_history
    (with_instruction
       (with_config base_runner
          (config_with
             ("Instructions: {{instruction}}" ++ LF
              ++ "Chat history:" ++ LF ++ "{{historic_messages}}" ++ "End")))
       "Write {{tool_names}} in your template.")
    (Some [UserPromptMessage (ContentStr "What does {{query}} mean?")]).

(** A tool whose description quotes a placeholder token, and a unit whose
    thought does. *)
Definition quoting_tool : PromptMessageTool :=
  {| name := "echo";
     description := "Prints {{tool_names}} back";
     parameters := [] |}.

Definition quoting_unit : AgentScratchpadUnit :=
  {| agent_response := None;
     thought := Some "The user wrote {{query}}";
     action_str := None;
     observation := None;
     action := Some {| action_name := "echo";
                       action_input := Json.JStr "hello" |} |}.

(** A final-answer predicate for the examples: a unit that carries no
    action is final. *)
Definition final_without_action (unit : AgentScratchpadUnit) : bool :=
  match action unit with
  | None => true
  | Some _ => false
  end.

End Fixtures.

(* ================================================================== *)
(** * Further notions *)
(* ================================================================== *)

(** Whether the character [c] occurs in [s]. *)
Fixpoint has_char (c : ascii) (s : string) : bool :=
  match s with
  | EmptyString => false
  | String d s' => Ascii.eqb c d || has_char c s'
  end.

(** The messages no branch of the loop of [_organize_historic_prompt]
    appends anything for: an unrecognized variant, null content, a single
    part on a user message, a sequence of parts on a tool message, a single
    part that is not text. *)
Definition silent (message : PromptMessage) : bool :=
  match message with
  | UserPromptMessage ContentNone => true
  | UserPromptMessage (ContentPart _) => true
  | UserPromptMessage _ => false
  | AssistantPromptMessage ContentNone => true
  | AssistantPromptMessage (ContentPart (ImagePromptMessageContent _)) => true
  | AssistantPromptMessage _ => false
  | ToolPromptMessage ContentNone => true
  | ToolPromptMessage (ContentSeq _) => true
  | ToolPromptMessage (ContentPart (ImagePromptMessageContent _)) => true
  | ToolPromptMessage _ => false
  | SystemPromptMessage _ => true
  end.

(** Whether [s] is not empty and its last character is [c]. *)
Fixpoint last_is (c : ascii) (s : string) : bool :=
  match s with
  | EmptyString => false
  | String d EmptyString => Ascii.eqb c d
  | String _ s' => last_is c s'
  end.

(** A sequence of parts without a text part. *)
Definition no_text_part (parts : list PromptMessageContent) : bool :=
  forallb (fun part => negb (is_text part)) parts.

(** A scratchpad without a final unit. *)
Definition none_final (is_final : AgentScratchpadUnit -> bool)
  (units : list AgentScratchpadUnit) : bool :=
  forallb (fun unit => negb (is_final unit)) units.

(** Further runners for the examples. *)
Module Cases.

(** A runner whose template holds no placeholder token at all. *)
Definition plain_runner : CotCompletionAgentRunner :=
  Fixtures.with_config Fixtures.base_runner
    (Fixtures.config_with "You are a helpful AI assistant.").

(** A runner without agent configuration, with history and scratchpad. *)
Definition unconfigured_runner : CotCompletionAgentRunner :=
  Fixtures.with_scratchpad
    (Fixtures.with_history
       (Fixtures.with_config Fixtures.base_runner {| agent := None |})
       (Some Fixtures.weather_history))
    (Some [Fixtures.calculator_unit]).

(** A runner whose template has the instruction token only, and whose
    instruction asks for the query. *)
Definition query_in_instruction_runner : CotCompletionAgentRunner :=
  Fixtures.with_instruction Fixtures.single_token_runner
    "Answer this: {{query}}".




(** A history with messages that render nothing between the others. *)
Definition padded_history : list PromptMessage :=
  [ SystemPromptMessage (ContentStr "You are a helpful AI assistant.");
    UserPromptMessage (ContentStr "What's the weather?");
    ToolPromptMessage
      (ContentSeq [TextPromptMessageContent "The weather is sunny."]);
    AssistantPromptMessage ContentNone;
    AssistantPromptMessage (ContentStr "It's sunny today!") ].

End Cases.

(* ================================================================== *)
(** * Facts about strings *)
(* ================================================================== *)

Lemma append_nil_r (s : string) : s ++ EmptyString = s.
Proof. induction s as [|c s IH]; simpl; [reflexivity | now rewrite IH]. Qed.

Lemma append_assoc (s t u : string) : (s ++ t) ++ u = s ++ (t ++ u).
Proof. induction s as [|c s IH]; simpl; [reflexivity | now rewrite IH]. Qed.

Lemma append_nil_l (s : string) : EmptyString ++ s = s.
Proof. reflexivity. Qed.

Create Rewrite HintDb pystr.
#[local] Hint Rewrite append_assoc append_nil_r append_nil_l : pystr.

Lemma concat_all_cons (x : string) (l : list string) :
  concat_all (x :: l) = x ++ concat_all l.
Proof.
  unfold concat_all. destruct l as [|y l]; simpl.
  - now rewrite append_nil_r.
  - reflexivity.
Qed.

Lemma concat_all_app (l1 l2 : list string) :
  concat_all (l1 ++ l2) = concat_all l1 ++ concat_all l2.
Proof.
  induction l1 as [|x l1 IH].
  - reflexivity.
  - rewrite <- app_comm_cons, !concat_all_cons, IH. now rewrite append_assoc.
Qed.

(** A loop that only appends to its accumulator yields the accumulator
    followed by the blocks of the items, in order. *)
Lemma fold_left_append {A : Type} (step : string -> A -> string) :
  (forall acc x, step acc x = acc ++ step EmptyString x) ->
  forall l acc,
    fold_left step l acc = acc ++ concat_all (map (step EmptyString) l).
Proof.
  intros Hstep l. induction l as [|x l IH]; intro acc; simpl.
  - now rewrite append_nil_r.
  - rewrite IH, concat_all_cons, (Hstep acc x). now rewrite append_assoc.
Qed.

Lemma or_empty_Some {A : Type} (l : list A) : or_empty (Some l) = l.
Proof. destruct l; reflexivity. Qed.

(* ================================================================== *)
(** * Facts about [prefix] *)
(* ================================================================== *)

Lemma prefix_nil (s : string) : prefix EmptyString s = true.
Proof. now destruct s. Qed.

Lemma prefix_append (p s : string) : prefix p (p ++ s) = true.
Proof.
  induction p as [|c p IH]; simpl.
  - apply prefix_nil.
  - destruct (ascii_dec c c) as [_|Hne]; [exact IH | now elim Hne].
Qed.

Lemma prefix_refl (p : string) : prefix p p = true.
Proof. rewrite <- (append_nil_r p) at 2. apply prefix_append. Qed.

Lemma prefix_length (p X : string) :
  prefix p X = true -> String.length p <= String.length X.
Proof.
  revert p. induction X as [|a X IH]; intros [|b p] H; simpl in *;
    try lia; try discriminate.
  destruct (ascii_dec b a); [|discriminate].
  apply IH in H. lia.
Qed.

Lemma prefix_extend (p X Z : string) :
  prefix p X = true -> prefix p (X ++ Z) = true.
Proof.
  revert p. induction X as [|a X IH]; intros [|b p] H; simpl in *;
    try discriminate; try reflexivity.
  - apply prefix_nil.
  - destruct (ascii_dec b a); [now apply IH | discriminate].
Qed.

(** A prefix of [X ++ W] ends inside [X] or runs on into [W]. *)
Lemma prefix_split (p X W : string) :
  prefix p (X ++ W) = true ->
  prefix p X = true \/ exists R, p = X ++ R /\ prefix R W = true.
Proof.
  revert p. induction X as [|a X IH]; intros p H.
  - right. now exists p.
  - destruct p as [|b p]; [now left|].
    cbn [append prefix] in H |- *.
    destruct (ascii_dec b a) as [->|]; [|discriminate].
    destruct (IH p H) as [Hin|[R [-> HR]]]; [now left|].
    right. now exists R.
Qed.

Lemma suffixes_clear_suffix (t X : string) (r : ascii) (R : string) :
  suffixes_clear t (X ++ String r R) = true ->
  prefix (String r R) t = false /\ prefix t (String r R) = false.
Proof.
  induction X as [|a X IH]; cbn [append suffixes_clear]; intro H.
  - apply andb_prop in H as [H _]. apply andb_prop in H as [H1 H2].
    now rewrite negb_true_iff in H1, H2.
  - apply andb_prop in H as [_ H]. now apply IH.
Qed.

(* ================================================================== *)
(** * Facts about [replace] *)
(* ================================================================== *)

Section Scan.

Variables old new : string.

(** Passing over the rest of an occurrence. *)
Lemma replace_scan_skip (Y X : string) :
  replace_scan old new (String.length Y) (Y ++ X) = replace_scan old new 0 X.
Proof. induction Y as [|c Y IH]; simpl; [reflexivity | exact IH]. Qed.

(** No occurrence at all: the text is unchanged. *)
Lemma replace_scan_absent (s : string) :
  contains s old = false -> replace_scan old new 0 s = s.
Proof.
  induction s as [|c s IH]; [reflexivity|].
  cbn [contains replace_scan]. intro H.
  apply orb_false_elim in H as [Hp Hc].
  rewrite Hp. now rewrite IH.
Qed.

End Scan.

(** An occurrence at the head is rewritten and the scan goes on after it. *)
Lemma replace_scan_here (c : ascii) (o new X : string) :
  replace_scan (String c o) new 0 (String c o ++ X)
  = new ++ replace_scan (String c o) new 0 X.
Proof.
  cbn [append replace_scan].
  change (String c (o ++ X)) with (String c o ++ X).
  rewrite prefix_append. cbn [String.length pred].
  now rewrite replace_scan_skip.
Qed.

Lemma replace_absent (s old new : string) :
  contains s old = false -> replace s old new = s.
Proof.
  destruct old as [|c o].
  - destruct s; discriminate.
  - apply replace_scan_absent.
Qed.

Section Segments.

Variables old new t : string.
Hypothesis Hclear : clear_of old t = true.

(** An occurrence of [old] that starts before the segment [t] ends before
    it. *)
Lemma occurrence_ends_before (a : ascii) (X Y : string) :
  prefix old (String a X ++ t ++ Y) = true ->
  prefix old (String a X) = true.
Proof.
  intro H. apply prefix_split in H as [Hin|[R [Hold HR]]]; [exact Hin|].
  destruct R as [|r R].
  - rewrite append_nil_r in Hold. rewrite Hold. apply prefix_refl.
  - exfalso. unfold clear_of in Hclear. rewrite Hold in Hclear.
    cbn [append] in Hclear.
    apply suffixes_clear_suffix in Hclear as [H1 H2].
    apply prefix_split in HR as [Hin|[R' [HR' _]]].
    + congruence.
    + rewrite HR', prefix_append in H2. discriminate.
Qed.

(** The scan of the text before the segment does not depend on what
    follows it. *)
Lemma replace_scan_segment (Y X : string) (k : nat) :
  k <= String.length X ->
  replace_scan old new k (X ++ t ++ Y)
  = replace_scan old new k X ++ replace_scan old new 0 (t ++ Y).
Proof.
  revert k. induction X as [|a X IH]; intros k Hk.
  - cbn [String.length] in Hk. now replace k with 0 by lia.
  - destruct k as [|k].
    + cbn [append replace_scan].
      destruct (prefix old (String a (X ++ t ++ Y))) eqn:Hm.
      * pose proof (occurrence_ends_before a X Y Hm) as Hin.
        rewrite Hin. pose proof (prefix_length _ _ Hin) as Hlen.
        cbn [String.length] in Hlen.
        rewrite IH by lia. now rewrite append_assoc.
      * destruct (prefix old (String a X)) eqn:Hin.
        -- apply (prefix_extend _ _ (t ++ Y)) in Hin.
           cbn [append] in Hin. congruence.
        -- cbn [append]. now rewrite IH by lia.
    + cbn [append replace_scan]. cbn [String.length] in Hk.
      apply IH. lia.
Qed.

End Segments.

(** Every occurrence of a token whose occurrences cannot overlap is
    replaced, wherever it stands in the text. *)
Lemma replace_every_occurrence (old new X Y : string) :
  clear_of old old = true ->
  replace (X ++ old ++ Y) old new
  = replace X old new ++ new ++ replace Y old new.
Proof.
  intro Hclear. destruct old as [|c o]; [discriminate|].
  unfold replace.
  rewrite (replace_scan_segment _ new _ Hclear Y X 0) by lia.
  now rewrite replace_scan_here.
Qed.

(** A segment the scan passes over is kept, and the texts on both sides of
    it are scanned on their own. *)
Lemma replace_around (old new t X Y : string) :
  clear_of old t = true ->
  (forall Z, replace (t ++ Z) old new = t ++ replace Z old new) ->
  replace (X ++ t ++ Y) old new
  = replace X old new ++ t ++ replace Y old new.
Proof.
  intros Hclear Hpass. destruct old as [|c o]; [discriminate|].
  specialize (Hpass Y). unfold replace in *.
  rewrite (replace_scan_segment _ new _ Hclear Y X 0) by lia.
  now rewrite Hpass.
Qed.

(** The scan for [{{tools}}] passes over [{{tool_names}}], and the scan for
    [{{agent_scratchpad}}] passes over [{{query}}]. *)
Lemma tools_scan_passes_tool_names (new X : string) :
  replace ("{{tool_names}}" ++ X) "{{tools}}" new
  = "{{tool_names}}" ++ replace X "{{tools}}" new.
Proof. reflexivity. Qed.

Lemma scratchpad_scan_passes_query (new X : string) :
  replace ("{{query}}" ++ X) "{{agent_scratchpad}}" new
  = "{{query}}" ++ replace X "{{agent_scratchpad}}" new.
Proof. reflexivity. Qed.

(* ================================================================== *)
(** * The instruction prompt *)
(* ================================================================== *)

Lemma organize_instruction_prompt_configured (self : CotCompletionAgentRunner)
  (agent_entity : AgentEntity) (prompt_entity : AgentPromptEntity) :
  agent (app_config self) = Some agent_entity ->
  prompt agent_entity = Some prompt_entity ->
  _organize_instruction_prompt self
  = Return
      (tools_passes
         (replace (first_prompt prompt_entity) "{{instruction}}"
            (_instruction self))
         (_prompt_messages_tools self)).
Proof.
  intros Ha Hp. unfold _organize_instruction_prompt. now rewrite Ha, Hp.
Qed.

(** C4: [_organize_instruction_prompt] raises the error
    "Agent configuration is not set" exactly when the agent configuration
    is absent, and the error "prompt entity is not set" exactly when the
    agent configuration is present and its prompt entity is absent.  The
    two errors differ, each of them is raised by some runner, no other
    error is raised, and with both present the method returns. *)
Theorem C4_configuration_errors :
  (forall self,
      _organize_instruction_prompt self
      = Raise (ValueError "Agent configuration is not set")
      <-> agent (app_config self) = None)
  /\ (forall self,
      _organize_instruction_prompt self
      = Raise (ValueError "prompt entity is not set")
      <-> exists agent_entity,
          agent (app_config self) = Some agent_entity
          /\ prompt agent_entity = None)
  /\ ValueError "Agent configuration is not set"
     <> ValueError "prompt entity is not set"
  /\ (exists self,
      _organize_instruction_prompt self
      = Raise (ValueError "Agent configuration is not set"))
  /\ (exists self,
      _organize_instruction_prompt self
      = Raise (ValueError "prompt entity is not set"))
  /\ (forall self error,
      _organize_instruction_prompt self = Raise error ->
      error = ValueError "Agent configuration is not set"
      \/ error = ValueError "prompt entity is not set")
  /\ (forall self agent_entity prompt_entity,
      agent (app_config self) = Some agent_entity ->
      prompt agent_entity = Some prompt_entity ->
      exists system_prompt,
        _organize_instruction_prompt self = Return system_prompt).
Proof.
  repeat split.
  - unfold _organize_instruction_prompt.
    destruct (agent (app_config self)) as [ae|]; [|reflexivity].
    destruct (prompt ae); discriminate.
  - intro H. unfold _organize_instruction_prompt. now rewrite H.
  - unfold _organize_instruction_prompt.
    destruct (agent (app_config self)) as [ae|]; [|discriminate].
    destruct (prompt ae) eqn:Hp; [discriminate|].
    intros _. now exists ae.
  - intros [ae [Ha Hp]]. unfold _organize_instruction_prompt.
    now rewrite Ha, Hp.
  - discriminate.
  - exists (Fixtures.with_config Fixtures.base_runner {| agent := None |}).
    reflexivity.
  - exists (Fixtures.with_config Fixtures.base_runner
              {| agent := Some {| prompt := None |} |}).
    reflexivity.
  - intros self error. unfold _organize_instruction_prompt.
    destruct (agent (app_config self)) as [ae|].
    + destruct (prompt ae); [discriminate|].
      intro H. right. congruence.
    + intro H. left. congruence.
  - intros self ae pe Ha Hp. eexists.
    apply (organize_instruction_prompt_configured self ae pe Ha Hp).
Qed.

Lemma C4_configuration_errors_witness :
  exists system_prompt,
    _organize_instruction_prompt Fixtures.base_runner = Return system_prompt.
Proof.
  exact (proj2 (proj2 (proj2 (proj2 (proj2 (proj2
           C4_configuration_errors)))))
           Fixtures.base_runner _ _ eq_refl eq_refl).
Defined.

Lemma dumps_tool (tool : PromptMessageTool) :
  Json.dumps (jsonable_encoder_tool tool) = tool_object tool.
Proof.
  unfold jsonable_encoder_tool, tool_object.
  cbn [Json.dumps map join String.concat].
  autorewrite with pystr. reflexivity.
Qed.

Lemma dumps_catalog (tools : list PromptMessageTool) :
  Json.dumps (jsonable_encoder tools)
  = "[" ++ join ", " (map tool_object tools) ++ "]".
Proof.
  unfold jsonable_encoder. cbn [Json.dumps].
  rewrite map_map. do 3 f_equal.
  apply map_ext. exact dumps_tool.
Qed.

(** C5: in the rendered instruction prompt the token [{{tools}}] is
    replaced by the catalog serialized as a JSON array with one object per
    tool, in catalog order, holding the name, the description and the
    parameter schema, and the token [{{tool_names}}] is replaced by the
    tool names joined with a comma and a space, in catalog order.  Wherever
    [{{tools}}] stands in the text after the instruction pass the array is
    put, and wherever [{{tool_names}}] stands in the text after the tools
    pass the joined names are. *)
Theorem C5_tools_and_tool_names (self : CotCompletionAgentRunner)
  (agent_entity : AgentEntity) (prompt_entity : AgentPromptEntity) :
  agent (app_config self) = Some agent_entity ->
  prompt agent_entity = Some prompt_entity ->
  _organize_instruction_prompt self
  = Return
      (replace
         (replace
            (replace (first_prompt prompt_entity)
               "{{instruction}}" (_instruction self))
            "{{tools}}"
            ("[" ++ join ", " (map tool_object (_prompt_messages_tools self))
                 ++ "]"))
         "{{tool_names}}"
         (join ", " (map name (_prompt_messages_tools self))))
  /\ (forall X Y,
      replace (first_prompt prompt_entity)
        "{{instruction}}" (_instruction self)
      = X ++ "{{tools}}" ++ Y ->
      _organize_instruction_prompt self
      = Return
          (replace
             (replace X "{{tools}}"
                ("[" ++ join ", "
                          (map tool_object (_prompt_messages_tools self))
                     ++ "]")
              ++ ("[" ++ join ", "
                           (map tool_object (_prompt_messages_tools self))
                      ++ "]")
              ++ replace Y "{{tools}}"
                   ("[" ++ join ", "
                             (map tool_object (_prompt_messages_tools self))
                        ++ "]"))
             "{{tool_names}}"
             (join ", " (map name (_prompt_messages_tools self)))))
  /\ (forall X Y,
      replace
        (replace (first_prompt prompt_entity)
           "{{instruction}}" (_instruction self))
        "{{tools}}"
        ("[" ++ join ", " (map tool_object (_prompt_messages_tools self))
             ++ "]")
      = X ++ "{{tool_names}}" ++ Y ->
      _organize_instruction_prompt self
      = Return
          (replace X "{{tool_names}}"
             (join ", " (map name (_prompt_messages_tools self)))
           ++ join ", " (map name (_prompt_messages_tools self))
           ++ replace Y "{{tool_names}}"
                (join ", " (map name (_prompt_messages_tools self))))).
Proof.
  intros Ha Hp.
  rewrite (organize_instruction_prompt_configured self _ _ Ha Hp).
  unfold tools_passes. rewrite dumps_catalog.
  split; [reflexivity|]. split; intros X Y Htext; rewrite Htext.
  - now rewrite (replace_every_occurrence "{{tools}}" _ X Y eq_refl).
  - now rewrite (replace_every_occurrence "{{tool_names}}" _ X Y eq_refl).
Qed.

Lemma C5_tools_and_tool_names_witness :
  _organize_instruction_prompt Fixtures.base_runner
  = Return
      ("System: You are a helpful AI assistant." ++ LF ++ LF
       ++ "Instructions: Help the user with their questions" ++ LF ++ LF
       ++ "Available tools: ["
       ++ tool_object Fixtures.calculator ++ ", "
       ++ tool_object Fixtures.weather ++ "]" ++ LF ++ LF
       ++ "Tool names: calculator, weather" ++ LF ++ LF
       ++ "Chat history:" ++ LF ++ "{{historic_messages}}" ++ LF ++ LF
       ++ "Current conversation:" ++ LF ++ "{{agent_scratchpad}}" ++ LF ++ LF
       ++ "{{query}}").
Proof.
  exact (proj1
           (C5_tools_and_tool_names Fixtures.base_runner _ _
              eq_refl eq_refl)).
Defined.


(* ================================================================== *)
(** * The history transcript *)
(* ================================================================== *)

Lemma historic_step_append (acc : string) (message : PromptMessage) :
  historic_step acc message = acc ++ message_block message.
Proof.
  unfold message_block.
  destruct message as [c|c|c|c]; destruct c as [|s|parts|[d|d]]; simpl;
    try (now rewrite append_nil_r); reflexivity.
Qed.

Lemma historic_loop (messages : list PromptMessage) :
  fold_left historic_step messages EmptyString
  = concat_all (map message_block messages).
Proof.
  rewrite (fold_left_append historic_step historic_step_append).
  reflexivity.
Qed.

Lemma text_parts_values (parts : list PromptMessageContent) :
  text_parts parts = text_values parts.
Proof.
  unfold text_values.
  induction parts as [|[d|d] parts IH]; simpl;
    [reflexivity | now f_equal | exact IH].
Qed.

(** The transcript of a history in which one message is singled out. *)
Lemma historic_prompt_split (self : CotCompletionAgentRunner)
  (before after : list PromptMessage) (message : PromptMessage) :
  history_prompt_messages self = Some (before ++ message :: after)%list ->
  _organize_historic_prompt self
  = concat_all (map message_block before)
    ++ message_block message
    ++ concat_all (map message_block after).
Proof.
  intro H. unfold _organize_historic_prompt.
  rewrite H, or_empty_Some, historic_loop, map_app, concat_all_app.
  simpl map. now rewrite concat_all_cons.
Qed.

(** The block of a message, written out per role and content. *)
Lemma message_block_explicit (message : PromptMessage) :
  message_block message
  = match message with
    | UserPromptMessage (ContentStr s) => "Question: " ++ s ++ LF ++ LF
    | UserPromptMessage (ContentSeq parts) =>
        "Question: " ++ join " " (text_values parts) ++ LF ++ LF
    | UserPromptMessage ContentNone => EmptyString
    | UserPromptMessage (ContentPart _) => EmptyString
    | AssistantPromptMessage (ContentStr s) => s ++ LF ++ LF
    | AssistantPromptMessage (ContentSeq parts) =>
        join " " (text_values parts) ++ LF ++ LF
    | AssistantPromptMessage (ContentPart (TextPromptMessageContent v)) =>
        v ++ LF ++ LF
    | AssistantPromptMessage (ContentPart (ImagePromptMessageContent _)) =>
        EmptyString
    | AssistantPromptMessage ContentNone => EmptyString
    | ToolPromptMessage (ContentStr s) => "Tool Response: " ++ s ++ LF ++ LF
    | ToolPromptMessage (ContentPart (TextPromptMessageContent v)) =>
        "Tool Response: " ++ v ++ LF ++ LF
    | ToolPromptMessage (ContentPart (ImagePromptMessageContent _)) =>
        EmptyString
    | ToolPromptMessage (ContentSeq _) => EmptyString
    | ToolPromptMessage ContentNone => EmptyString
    | SystemPromptMessage _ => EmptyString
    end.
Proof.
  unfold message_block.
  destruct message as [c|c|c|c]; destruct c as [|s|parts|[v|v]];
    cbn [historic_step]; rewrite <- ?text_parts_values; reflexivity.
Qed.

(** C7: the history transcript is the empty string for an absent or empty
    message sequence, and for a non-empty one the concatenation, in input
    order, of the blocks of its messages, where the block of a message is:
    for a user message "Question: " and the string, or the text-part values
    of the sequence joined by one space, and a blank line; for an assistant
    message the string, the joined text-part values or the value of a
    single text part, and a blank line; for a tool message
    "Tool Response: " and the string or the value of a single text part,
    and a blank line; and nothing in every other case. *)
Theorem C7_historic_prompt_concatenation (self : CotCompletionAgentRunner) :
  _organize_historic_prompt self
  = match history_prompt_messages self with
    | None => EmptyString
    | Some [] => EmptyString
    | Some (first :: others) =>
        concat_all
          (map
             (fun message =>
                match message with
                | UserPromptMessage (ContentStr s) =>
                    "Question: " ++ s ++ LF ++ LF
                | UserPromptMessage (ContentSeq parts) =>
                    "Question: " ++ join " " (text_values parts) ++ LF ++ LF
                | UserPromptMessage ContentNone => EmptyString
                | UserPromptMessage (ContentPart _) => EmptyString
                | AssistantPromptMessage (ContentStr s) => s ++ LF ++ LF
                | AssistantPromptMessage (ContentSeq parts) =>
                    join " " (text_values parts) ++ LF ++ LF
                | AssistantPromptMessage
                    (ContentPart (TextPromptMessageContent v)) =>
                    v ++ LF ++ LF
                | AssistantPromptMessage
                    (ContentPart (ImagePromptMessageContent _)) =>
                    EmptyString
                | AssistantPromptMessage ContentNone => EmptyString
                | ToolPromptMessage (ContentStr s) =>
                    "Tool Response: " ++ s ++ LF ++ LF
                | ToolPromptMessage
                    (ContentPart (TextPromptMessageContent v)) =>
                    "Tool Response: " ++ v ++ LF ++ LF
                | ToolPromptMessage
                    (ContentPart (ImagePromptMessageContent _)) =>
                    EmptyString
                | ToolPromptMessage (ContentSeq _) => EmptyString
                | ToolPromptMessage ContentNone => EmptyString
                | SystemPromptMessage _ => EmptyString
                end)
             (first :: others))
    end.
Proof.
  unfold _organize_historic_prompt.
  destruct (history_prompt_messages self) as [[|first others]|].
  - reflexivity.
  - rewrite or_empty_Some, historic_loop. f_equal.
    apply map_ext. exact message_block_explicit.
  - reflexivity.
Qed.

(** C6: in the history transcript a user message with a plain string [s]
    contributes exactly "Question: s" followed by a blank line; with a
    sequence of parts it contributes "Question: joined" followed by a blank
    line, where [joined] is the text-part values joined by one space, the
    other parts skipped; with null content it contributes nothing.  (A
    single part that is not inside a sequence matches none of the probes of
    the user branch and contributes nothing either.) *)
Theorem C6_user_message_block (self : CotCompletionAgentRunner)
  (before after : list PromptMessage) (content : MessageContent) :
  history_prompt_messages self
  = Some (before ++ UserPromptMessage content :: after)%list ->
  _organize_historic_prompt self
  = concat_all (map message_block before)
    ++ match content with
       | ContentStr s => "Question: " ++ s ++ LF ++ LF
       | ContentSeq parts =>
           "Question: " ++ join " " (text_values parts) ++ LF ++ LF
       | ContentNone => EmptyString
       | ContentPart _ => EmptyString
       end
    ++ concat_all (map message_block after).
Proof.
  intro H. rewrite (historic_prompt_split self before after _ H).
  do 2 f_equal.
  destruct content as [|s|parts|part]; unfold message_block; simpl;
    try reflexivity.
  now rewrite text_parts_values.
Qed.

Lemma C6_user_message_block_witness :
  _organize_historic_prompt
    (Fixtures.with_history Fixtures.base_runner
       (Some [UserPromptMessage Fixtures.two_part_question;
              AssistantPromptMessage (ContentStr "Let me check both for you.")]))
  = "Question: What's the weather like? And temperature too?" ++ LF ++ LF
    ++ "Let me check both for you." ++ LF ++ LF.
Proof.
  exact (C6_user_message_block
           (Fixtures.with_history Fixtures.base_runner
              (Some [UserPromptMessage Fixtures.two_part_question;
                     AssistantPromptMessage
                       (ContentStr "Let me check both for you.")]))
           [] [AssistantPromptMessage (ContentStr "Let me check both for you.")]
           Fixtures.two_part_question eq_refl).
Defined.

(** C8: in the history transcript a tool message with a plain string [s]
    contributes exactly "Tool Response: s" followed by a blank line, with a
    single text part of value [v] it contributes "Tool Response: v" followed
    by a blank line, and with a sequence of parts or with null content it
    contributes nothing; no case raises.  (A single part that is not a text
    part contributes nothing either.) *)
Theorem C8_tool_message_block (self : CotCompletionAgentRunner)
  (before after : list PromptMessage) (content : MessageContent) :
  history_prompt_messages self
  = Some (before ++ ToolPromptMessage content :: after)%list ->
  _organize_historic_prompt self
  = concat_all (map message_block before)
    ++ match content with
       | ContentStr s => "Tool Response: " ++ s ++ LF ++ LF
       | ContentPart (TextPromptMessageContent v) =>
           "Tool Response: " ++ v ++ LF ++ LF
       | ContentSeq _ => EmptyString
       | ContentNone => EmptyString
       | ContentPart (ImagePromptMessageContent _) => EmptyString
       end
    ++ concat_all (map message_block after).
Proof.
  intro H. rewrite (historic_prompt_split self before after _ H).
  destruct content as [|s|parts|[v|v]]; reflexivity.
Qed.

Lemma C8_tool_message_block_witness :
  _organize_historic_prompt
    (Fixtures.with_history Fixtures.base_runner
       (Some [ToolPromptMessage (ContentStr "The weather is sunny.");
              ToolPromptMessage
                (ContentSeq [TextPromptMessageContent "The weather is sunny."]);
              ToolPromptMessage
                (ContentPart (TextPromptMessageContent "It is warm."))]))
  = "Tool Response: The weather is sunny." ++ LF ++ LF
    ++ "Tool Response: It is warm." ++ LF ++ LF.
Proof.
  exact (C8_tool_message_block
           (Fixtures.with_history Fixtures.base_runner
              (Some [ToolPromptMessage (ContentStr "The weather is sunny.");
                     ToolPromptMessage
                       (ContentSeq
                          [TextPromptMessageContent "The weather is sunny."]);
                     ToolPromptMessage
                       (ContentPart (TextPromptMessageContent "It is warm."))]))
           [ToolPromptMessage (ContentStr "The weather is sunny.")]
           [ToolPromptMessage
              (ContentPart (TextPromptMessageContent "It is warm."))]
           (ContentSeq [TextPromptMessageContent "The weather is sunny."])
           eq_refl).
Defined.

(** The transcript of [test_organize_historic_prompt_with_messages]. *)
Example historic_prompt_with_messages :
  _organize_historic_prompt
    (Fixtures.with_history Fixtures.base_runner
       (Some Fixtures.weather_history))
  = "Question: What's the weather?" ++ LF ++ LF
    ++ "Let me check that for you." ++ LF ++ LF
    ++ "Tool Response: The weather is sunny." ++ LF ++ LF
    ++ "It's sunny today!" ++ LF ++ LF.
Proof. reflexivity. Qed.

(* ================================================================== *)
(** * The scratchpad rendering *)
(* ================================================================== *)

Section ScratchpadFacts.

Variable is_final : AgentScratchpadUnit -> bool.

Lemma scratchpad_step_append (acc : string) (unit : AgentScratchpadUnit) :
  scratchpad_step is_final acc unit
  = acc ++ scratchpad_step is_final EmptyString unit.
Proof.
  unfold scratchpad_step.
  destruct (is_final unit); [reflexivity|].
  destruct (truthy (action_str unit)), (truthy (observation unit));
    autorewrite with pystr; reflexivity.
Qed.

Lemma scratchpad_step_rendering (unit : AgentScratchpadUnit) :
  scratchpad_step is_final EmptyString unit = unit_rendering is_final unit.
Proof.
  unfold scratchpad_step, unit_rendering.
  destruct (is_final unit); [reflexivity|].
  destruct (truthy (action_str unit)), (truthy (observation unit));
    autorewrite with pystr; reflexivity.
Qed.

Lemma scratchpad_loop (units : list AgentScratchpadUnit) :
  fold_left (scratchpad_step is_final) units EmptyString
  = scratchpad_rendering is_final units.
Proof.
  rewrite (fold_left_append _ scratchpad_step_append). simpl.
  unfold scratchpad_rendering. f_equal.
  apply map_ext. exact scratchpad_step_rendering.
Qed.

Lemma scratchpad_rendering_app (l1 l2 : list AgentScratchpadUnit) :
  scratchpad_rendering is_final (l1 ++ l2)
  = scratchpad_rendering is_final l1 ++ scratchpad_rendering is_final l2.
Proof. unfold scratchpad_rendering. now rewrite map_app, concat_all_app. Qed.

Lemma scratchpad_rendering_cons (unit : AgentScratchpadUnit)
  (units : list AgentScratchpadUnit) :
  scratchpad_rendering is_final (unit :: units)
  = unit_rendering is_final unit ++ scratchpad_rendering is_final units.
Proof. unfold scratchpad_rendering. simpl map. apply concat_all_cons. Qed.

(** What [_organize_prompt_messages] returns once the instruction prompt
    has rendered. *)
Lemma organize_prompt_messages_assembled (self : CotCompletionAgentRunner)
  (system_prompt : string) :
  _organize_instruction_prompt self = Return system_prompt ->
  _organize_prompt_messages is_final self
  = Return
      [UserPromptMessage
         (ContentSeq
            [TextPromptMessageContent
               (scratchpad_query_passes
                  (replace system_prompt "{{historic_messages}}"
                     (_organize_historic_prompt self))
                  (organize_scratchpad is_final (_agent_scratchpad self))
                  ("Question: " ++ _query self))])].
Proof.
  intro Hsys. unfold _organize_prompt_messages. now rewrite Hsys.
Qed.

End ScratchpadFacts.

(** C1: the scratchpad loop of [_organize_prompt_messages] yields the
    concatenation, in scratchpad order, of the renderings of the units,
    where a final unit is rendered as "Final Answer: agent_response" with
    nothing after it, and a non-final unit as "Thought: thought" and a blank
    line, then "Action: action_str" and a blank line exactly when
    [action_str] is non-empty, then "Observation: observation" and a blank
    line exactly when [observation] is non-empty. *)
Theorem C1_scratchpad_rendering (is_final : AgentScratchpadUnit -> bool)
  (agent_scratchpad : option (list AgentScratchpadUnit)) :
  organize_scratchpad is_final agent_scratchpad
  = concat_all
      (map (fun unit =>
              if is_final unit
              then "Final Answer: " ++ format (agent_response unit)
              else
                ("Thought: " ++ format (thought unit) ++ LF ++ LF)
                ++ (if truthy (action_str unit)
                    then "Action: " ++ format (action_str unit) ++ LF ++ LF
                    else EmptyString)
                ++ (if truthy (observation unit)
                    then "Observation: " ++ format (observation unit)
                         ++ LF ++ LF
                    else EmptyString))
         (or_empty agent_scratchpad)).
Proof.
  unfold organize_scratchpad. rewrite scratchpad_loop. reflexivity.
Qed.

(** C10: the scratchpad loop does not stop at a final unit.  When a unit
    whose is-final predicate holds is followed by further units, these are
    rendered as well, and their text comes immediately after
    "Final Answer: agent_response", without a separator; nothing is raised:
    whenever the instruction prompt renders, the prompt message is returned
    with this scratchpad text substituted. *)
Theorem C10_units_after_final_are_rendered
  (is_final : AgentScratchpadUnit -> bool) (self : CotCompletionAgentRunner)
  (before after : list AgentScratchpadUnit) (unit : AgentScratchpadUnit) :
  _agent_scratchpad self = Some (before ++ unit :: after)%list ->
  is_final unit = true ->
  organize_scratchpad is_final (_agent_scratchpad self)
  = scratchpad_rendering is_final before
    ++ ("Final Answer: " ++ format (agent_response unit))
    ++ scratchpad_rendering is_final after
  /\ forall system_prompt,
      _organize_instruction_prompt self = Return system_prompt ->
      _organize_prompt_messages is_final self
      = Return
          [UserPromptMessage
             (ContentSeq
                [TextPromptMessageContent
                   (replace
                      (replace
                         (replace system_prompt "{{historic_messages}}"
                            (_organize_historic_prompt self))
                         "{{agent_scratchpad}}"
                         (scratchpad_rendering is_final before
                          ++ ("Final Answer: "
                              ++ format (agent_response unit))
                          ++ scratchpad_rendering is_final after))
                      "{{query}}" ("Question: " ++ _query self))])].
Proof.
  intros Hpad Hfinal.
  assert (Hloop :
    organize_scratchpad is_final (_agent_scratchpad self)
    = scratchpad_rendering is_final before
      ++ ("Final Answer: " ++ format (agent_response unit))
      ++ scratchpad_rendering is_final after).
  { unfold organize_scratchpad.
    rewrite Hpad, or_empty_Some, scratchpad_loop.
    rewrite scratchpad_rendering_app, scratchpad_rendering_cons.
    unfold unit_rendering at 1. now rewrite Hfinal. }
  split; [exact Hloop|].
  intros system_prompt Hsys.
  rewrite (organize_prompt_messages_assembled is_final self _ Hsys).
  unfold scratchpad_query_passes. now rewrite Hloop.
Qed.

Lemma C10_units_after_final_are_rendered_witness :
  organize_scratchpad Fixtures.final_without_action
    (Some [Fixtures.answer_unit; Fixtures.calculator_unit])
  = "Final Answer: 2+2 is 4"
    ++ "Thought: I should use the calculator" ++ LF ++ LF
    ++ "Action: " ++ Fixtures.calculator_action_str ++ LF ++ LF
    ++ "Observation: 4" ++ LF ++ LF.
Proof.
  exact (proj1
           (C10_units_after_final_are_rendered
              Fixtures.final_without_action
              (Fixtures.with_scratchpad Fixtures.base_runner
                 (Some [Fixtures.answer_unit; Fixtures.calculator_unit]))
              [] [Fixtures.calculator_unit] Fixtures.answer_unit
              eq_refl eq_refl)).
Defined.

(* ================================================================== *)
(** * The assembled prompt *)
(* ================================================================== *)

(** C2: whenever the instruction prompt renders, [_organize_prompt_messages]
    returns a list of exactly one user message whose content is a single
    text part; its text is the rendered instruction prompt in which
    [{{historic_messages}}] is replaced by the history transcript, then
    [{{agent_scratchpad}}] by the scratchpad rendering, then [{{query}}] by
    "Question: " followed by the query.  For an instruction prompt
    [A{{historic_messages}}B{{agent_scratchpad}}C{{query}}D] in which no
    pass meets its token anywhere else, the text is [A], the transcript,
    [B], the scratchpad rendering, [C], the query line and [D]. *)
Theorem C2_single_user_message (is_final : AgentScratchpadUnit -> bool)
  (self : CotCompletionAgentRunner) (system_prompt : string) :
  _organize_instruction_prompt self = Return system_prompt ->
  _organize_prompt_messages is_final self
  = Return
      [UserPromptMessage
         (ContentSeq
            [TextPromptMessageContent
               (replace
                  (replace
                     (replace system_prompt "{{historic_messages}}"
                        (_organize_historic_prompt self))
                     "{{agent_scratchpad}}"
                     (scratchpad_rendering is_final
                        (or_empty (_agent_scratchpad self))))
                  "{{query}}" ("Question: " ++ _query self))])]
  /\ (forall A B C D historic_prompt assistant_prompt,
      system_prompt
      = A ++ "{{historic_messages}}"
          ++ B ++ "{{agent_scratchpad}}" ++ C ++ "{{query}}" ++ D ->
      historic_prompt = _organize_historic_prompt self ->
      assistant_prompt
      = scratchpad_rendering is_final (or_empty (_agent_scratchpad self)) ->
      contains A "{{historic_messages}}" = false ->
      contains (B ++ "{{agent_scratchpad}}" ++ C ++ "{{query}}" ++ D)
        "{{historic_messages}}" = false ->
      contains (A ++ historic_prompt ++ B) "{{agent_scratchpad}}" = false ->
      contains (C ++ "{{query}}" ++ D) "{{agent_scratchpad}}" = false ->
      contains (A ++ historic_prompt ++ B ++ assistant_prompt ++ C)
        "{{query}}" = false ->
      contains D "{{query}}" = false ->
      _organize_prompt_messages is_final self
      = Return
          [UserPromptMessage
             (ContentSeq
                [TextPromptMessageContent
                   (A ++ historic_prompt ++ B ++ assistant_prompt ++ C
                      ++ ("Question: " ++ _query self) ++ D)])]).
Proof.
  intro Hsys.
  assert (Hpasses :
    _organize_prompt_messages is_final self
    = Return
        [UserPromptMessage
           (ContentSeq
              [TextPromptMessageContent
                 (replace
                    (replace
                       (replace system_prompt "{{historic_messages}}"
                          (_organize_historic_prompt self))
                       "{{agent_scratchpad}}"
                       (scratchpad_rendering is_final
                          (or_empty (_agent_scratchpad self))))
                    "{{query}}" ("Question: " ++ _query self))])]).
  { rewrite (organize_prompt_messages_assembled is_final self _ Hsys).
    unfold scratchpad_query_passes, organize_scratchpad.
    now rewrite scratchpad_loop. }
  split; [exact Hpasses|].
  intros A B C D historic_prompt assistant_prompt
    Hshape Hh Hs HA HB HAB HCD HABC HD.
  rewrite Hpasses, <- Hh, <- Hs, Hshape.
  rewrite (replace_every_occurrence "{{historic_messages}}" _ A _ eq_refl).
  rewrite (replace_absent A _ _ HA), (replace_absent _ _ _ HB).
  replace (A ++ historic_prompt
             ++ B ++ "{{agent_scratchpad}}" ++ C ++ "{{query}}" ++ D)
    with ((A ++ historic_prompt ++ B)
            ++ "{{agent_scratchpad}}" ++ (C ++ "{{query}}" ++ D))
    by now rewrite !append_assoc.
  rewrite (replace_every_occurrence "{{agent_scratchpad}}" _ _ _ eq_refl).
  rewrite (replace_absent _ _ _ HAB), (replace_absent _ _ _ HCD).
  replace ((A ++ historic_prompt ++ B)
             ++ assistant_prompt ++ C ++ "{{query}}" ++ D)
    with ((A ++ historic_prompt ++ B ++ assistant_prompt ++ C)
            ++ "{{query}}" ++ D)
    by now rewrite !append_assoc.
  rewrite (replace_every_occurrence "{{query}}" _ _ _ eq_refl).
  rewrite (replace_absent _ _ _ HABC), (replace_absent _ _ _ HD).
  now rewrite !append_assoc.
Qed.

Lemma C2_single_user_message_witness :
  _organize_prompt_messages Fixtures.final_without_action
    (Fixtures.with_scratchpad
       (Fixtures.with_history Fixtures.base_runner
          (Some [UserPromptMessage (ContentStr "What is 2+2?")]))
       (Some [Fixtures.calculator_unit]))
  = Return
      [UserPromptMessage
         (ContentSeq
            [TextPromptMessageContent
               (("System: You are a helpful AI assistant." ++ LF ++ LF
                 ++ "Instructions: Help the user with their questions"
                 ++ LF ++ LF
                 ++ "Available tools: ["
                 ++ tool_object Fixtures.calculator ++ ", "
                 ++ tool_object Fixtures.weather ++ "]" ++ LF ++ LF
                 ++ "Tool names: calculator, weather" ++ LF ++ LF
                 ++ "Chat history:" ++ LF)
                ++ ("Question: What is 2+2?" ++ LF ++ LF)
                ++ (LF ++ LF ++ "Current conversation:" ++ LF)
                ++ ("Thought: I should use the calculator" ++ LF ++ LF
                    ++ "Action: " ++ Fixtures.calculator_action_str
                    ++ LF ++ LF
                    ++ "Observation: 4" ++ LF ++ LF)
                ++ (LF ++ LF)
                ++ ("Question: " ++ "What is 2+2?")
                ++ EmptyString)])].
Proof.
  exact (proj2
           (C2_single_user_message Fixtures.final_without_action
              (Fixtures.with_scratchpad
                 (Fixtures.with_history Fixtures.base_runner
                    (Some [UserPromptMessage (ContentStr "What is 2+2?")]))
                 (Some [Fixtures.calculator_unit]))
              _ eq_refl)
           ("System: You are a helpful AI assistant." ++ LF ++ LF
            ++ "Instructions: Help the user with their questions"
            ++ LF ++ LF
            ++ "Available tools: ["
            ++ tool_object Fixtures.calculator ++ ", "
            ++ tool_object Fixtures.weather ++ "]" ++ LF ++ LF
            ++ "Tool names: calculator, weather" ++ LF ++ LF
            ++ "Chat history:" ++ LF)
           (LF ++ LF ++ "Current conversation:" ++ LF)
           (LF ++ LF)
           EmptyString
           ("Question: What is 2+2?" ++ LF ++ LF)
           ("Thought: I should use the calculator" ++ LF ++ LF
            ++ "Action: " ++ Fixtures.calculator_action_str ++ LF ++ LF
            ++ "Observation: 4" ++ LF ++ LF)
           eq_refl eq_refl eq_refl
           eq_refl eq_refl eq_refl eq_refl eq_refl eq_refl).
Defined.

(** The prompt of [test_organize_prompt_messages_minimal]: the instruction
    and the query line are there, no scratchpad word is. *)
Example prompt_messages_minimal :
  exists text,
    _organize_prompt_messages Fixtures.final_without_action
      (Fixtures.with_history Fixtures.base_runner (Some []))
    = Return [UserPromptMessage (ContentSeq [TextPromptMessageContent text])]
    /\ contains text "Help the user with their questions" = true
    /\ contains text "Question: What is 2+2?" = true
    /\ contains text "Thought:" = false
    /\ contains text "Action:" = false
    /\ contains text "Observation:" = false.
Proof. eexists. split; [reflexivity|]. repeat split. Qed.

(** C9: the placeholders are substituted by successive plain text
    replacements, each over the whole text the passes before it produced,
    so a token of a later pass that stands in text inserted by an earlier
    pass is replaced as well, and the inserted text does not reach the
    prompt verbatim.  In the instruction prompt: [{{tool_names}}] or
    [{{tools}}] inside the instruction text, and [{{tool_names}}] inside
    the serialized catalog, are replaced where they stand.  In the
    assembled prompt: [{{agent_scratchpad}}] or [{{query}}] inside the
    history transcript, and [{{query}}] inside the scratchpad rendering,
    are replaced where they stand.  The texts on both sides of the token go
    through the later passes too. *)
Theorem C9_sequential_replacement (is_final : AgentScratchpadUnit -> bool) :
  (* the instruction text holds {{tool_names}} *)
  (forall self agent_entity prompt_entity A B I1 I2,
      agent (app_config self) = Some agent_entity ->
      prompt agent_entity = Some prompt_entity ->
      first_prompt prompt_entity = A ++ "{{instruction}}" ++ B ->
      _instruction self = I1 ++ "{{tool_names}}" ++ I2 ->
      _organize_instruction_prompt self
      = Return
          (tools_passes
             (replace A "{{instruction}}" (_instruction self) ++ I1)
             (_prompt_messages_tools self)
           ++ join ", " (map name (_prompt_messages_tools self))
           ++ tools_passes
                (I2 ++ replace B "{{instruction}}" (_instruction self))
                (_prompt_messages_tools self)))
  (* the instruction text holds {{tools}} *)
  /\ (forall self agent_entity prompt_entity A B I1 I2,
      agent (app_config self) = Some agent_entity ->
      prompt agent_entity = Some prompt_entity ->
      first_prompt prompt_entity = A ++ "{{instruction}}" ++ B ->
      _instruction self = I1 ++ "{{tools}}" ++ I2 ->
      _organize_instruction_prompt self
      = Return
          (replace
             (replace
                (replace A "{{instruction}}" (_instruction self) ++ I1)
                "{{tools}}"
                (Json.dumps (jsonable_encoder (_prompt_messages_tools self)))
              ++ Json.dumps (jsonable_encoder (_prompt_messages_tools self))
              ++ replace
                   (I2 ++ replace B "{{instruction}}" (_instruction self))
                   "{{tools}}"
                   (Json.dumps
                      (jsonable_encoder (_prompt_messages_tools self))))
             "{{tool_names}}"
             (join ", " (map name (_prompt_messages_tools self)))))
  (* the serialized catalog holds {{tool_names}} *)
  /\ (forall self agent_entity prompt_entity X Y J1 J2,
      agent (app_config self) = Some agent_entity ->
      prompt agent_entity = Some prompt_entity ->
      replace (first_prompt prompt_entity)
        "{{instruction}}" (_instruction self)
      = X ++ "{{tools}}" ++ Y ->
      Json.dumps (jsonable_encoder (_prompt_messages_tools self))
      = J1 ++ "{{tool_names}}" ++ J2 ->
      _organize_instruction_prompt self
      = Return
          (replace
             (replace X "{{tools}}"
                (Json.dumps (jsonable_encoder (_prompt_messages_tools self)))
              ++ J1)
             "{{tool_names}}"
             (join ", " (map name (_prompt_messages_tools self)))
           ++ join ", " (map name (_prompt_messages_tools self))
           ++ replace
                (J2 ++ replace Y "{{tools}}"
                         (Json.dumps
                            (jsonable_encoder (_prompt_messages_tools self))))
                "{{tool_names}}"
                (join ", " (map name (_prompt_messages_tools self)))))
  (* the history transcript holds {{agent_scratchpad}} *)
  /\ (forall self A' B' H1 H2,
      _organize_instruction_prompt self
      = Return (A' ++ "{{historic_messages}}" ++ B') ->
      _organize_historic_prompt self = H1 ++ "{{agent_scratchpad}}" ++ H2 ->
      _organize_prompt_messages is_final self
      = Return
          [UserPromptMessage
             (ContentSeq
                [TextPromptMessageContent
                   (replace
                      (replace
                         (replace A' "{{historic_messages}}"
                            (_organize_historic_prompt self) ++ H1)
                         "{{agent_scratchpad}}"
                         (organize_scratchpad is_final
                            (_agent_scratchpad self))
                       ++ organize_scratchpad is_final
                            (_agent_scratchpad self)
                       ++ replace
                            (H2 ++ replace B' "{{historic_messages}}"
                                     (_organize_historic_prompt self))
                            "{{agent_scratchpad}}"
                            (organize_scratchpad is_final
                               (_agent_scratchpad self)))
                      "{{query}}" ("Question: " ++ _query self))])])
  (* the history transcript holds {{query}} *)
  /\ (forall self A' B' H1 H2,
      _organize_instruction_prompt self
      = Return (A' ++ "{{historic_messages}}" ++ B') ->
      _organize_historic_prompt self = H1 ++ "{{query}}" ++ H2 ->
      _organize_prompt_messages is_final self
      = Return
          [UserPromptMessage
             (ContentSeq
                [TextPromptMessageContent
                   (scratchpad_query_passes
                      (replace A' "{{historic_messages}}"
                         (_organize_historic_prompt self) ++ H1)
                      (organize_scratchpad is_final (_agent_scratchpad self))
                      ("Question: " ++ _query self)
                    ++ ("Question: " ++ _query self)
                    ++ scratchpad_query_passes
                         (H2 ++ replace B' "{{historic_messages}}"
                                  (_organize_historic_prompt self))
                         (organize_scratchpad is_final
                            (_agent_scratchpad self))
                         ("Question: " ++ _query self))])])
  (* the scratchpad rendering holds {{query}} *)
  /\ (forall self system_prompt X Y S1 S2,
      _organize_instruction_prompt self = Return system_prompt ->
      replace system_prompt "{{historic_messages}}"
        (_organize_historic_prompt self)
      = X ++ "{{agent_scratchpad}}" ++ Y ->
      organize_scratchpad is_final (_agent_scratchpad self)
      = S1 ++ "{{query}}" ++ S2 ->
      _organize_prompt_messages is_final self
      = Return
          [UserPromptMessage
             (ContentSeq
                [TextPromptMessageContent
                   (replace
                      (replace X "{{agent_scratchpad}}"
                         (organize_scratchpad is_final
                            (_agent_scratchpad self))
                       ++ S1)
                      "{{query}}" ("Question: " ++ _query self)
                    ++ ("Question: " ++ _query self)
                    ++ replace
                         (S2 ++ replace Y "{{agent_scratchpad}}"
                                  (organize_scratchpad is_final
                                     (_agent_scratchpad self)))
                         "{{query}}" ("Question: " ++ _query self))])]).
Proof.
  repeat apply conj.
  - intros self ae pe A B I1 I2 Ha Hp Htemplate Hinstruction.
    rewrite (organize_instruction_prompt_configured self _ _ Ha Hp).
    rewrite Htemplate.
    rewrite (replace_every_occurrence "{{instruction}}" _ A B eq_refl).
    remember (replace A "{{instruction}}" (_instruction self)) as A1.
    remember (replace B "{{instruction}}" (_instruction self)) as B1.
    rewrite Hinstruction. unfold tools_passes.
    generalize (Json.dumps (jsonable_encoder (_prompt_messages_tools self))).
    generalize (join ", " (map name (_prompt_messages_tools self))).
    intros names catalog.
    replace (A1 ++ (I1 ++ "{{tool_names}}" ++ I2) ++ B1)
      with ((A1 ++ I1) ++ "{{tool_names}}" ++ (I2 ++ B1))
      by now rewrite !append_assoc.
    rewrite (replace_around "{{tools}}" catalog "{{tool_names}}" _ _ eq_refl
               (tools_scan_passes_tool_names catalog)).
    now rewrite (replace_every_occurrence "{{tool_names}}" names _ _ eq_refl).
  - intros self ae pe A B I1 I2 Ha Hp Htemplate Hinstruction.
    rewrite (organize_instruction_prompt_configured self _ _ Ha Hp).
    rewrite Htemplate.
    rewrite (replace_every_occurrence "{{instruction}}" _ A B eq_refl).
    remember (replace A "{{instruction}}" (_instruction self)) as A1.
    remember (replace B "{{instruction}}" (_instruction self)) as B1.
    rewrite Hinstruction. unfold tools_passes.
    replace (A1 ++ (I1 ++ "{{tools}}" ++ I2) ++ B1)
      with ((A1 ++ I1) ++ "{{tools}}" ++ (I2 ++ B1))
      by now rewrite !append_assoc.
    now rewrite (replace_every_occurrence "{{tools}}" _ _ _ eq_refl).
  - intros self ae pe X Y J1 J2 Ha Hp Htext Hcatalog.
    rewrite (organize_instruction_prompt_configured self _ _ Ha Hp).
    unfold tools_passes. rewrite Htext.
    rewrite (replace_every_occurrence "{{tools}}" _ X Y eq_refl).
    remember (replace X "{{tools}}"
                (Json.dumps (jsonable_encoder (_prompt_messages_tools self))))
      as X1.
    remember (replace Y "{{tools}}"
                (Json.dumps (jsonable_encoder (_prompt_messages_tools self))))
      as Y1.
    rewrite Hcatalog.
    replace (X1 ++ (J1 ++ "{{tool_names}}" ++ J2) ++ Y1)
      with ((X1 ++ J1) ++ "{{tool_names}}" ++ (J2 ++ Y1))
      by now rewrite !append_assoc.
    now rewrite (replace_every_occurrence "{{tool_names}}" _ _ _ eq_refl).
  - intros self A' B' H1 H2 Hsys Hhistory.
    rewrite (organize_prompt_messages_assembled is_final self _ Hsys).
    rewrite (replace_every_occurrence "{{historic_messages}}" _ A' B' eq_refl).
    remember (replace A' "{{historic_messages}}"
                (_organize_historic_prompt self)) as A1.
    remember (replace B' "{{historic_messages}}"
                (_organize_historic_prompt self)) as B1.
    rewrite Hhistory. unfold scratchpad_query_passes.
    replace (A1 ++ (H1 ++ "{{agent_scratchpad}}" ++ H2) ++ B1)
      with ((A1 ++ H1) ++ "{{agent_scratchpad}}" ++ (H2 ++ B1))
      by now rewrite !append_assoc.
    now rewrite (replace_every_occurrence "{{agent_scratchpad}}" _ _ _ eq_refl).
  - intros self A' B' H1 H2 Hsys Hhistory.
    rewrite (organize_prompt_messages_assembled is_final self _ Hsys).
    rewrite (replace_every_occurrence "{{historic_messages}}" _ A' B' eq_refl).
    remember (replace A' "{{historic_messages}}"
                (_organize_historic_prompt self)) as A1.
    remember (replace B' "{{historic_messages}}"
                (_organize_historic_prompt self)) as B1.
    rewrite Hhistory. unfold scratchpad_query_passes.
    generalize (organize_scratchpad is_final (_agent_scratchpad self)).
    generalize ("Question: " ++ _query self).
    intros query_prompt scratchpad.
    replace (A1 ++ (H1 ++ "{{query}}" ++ H2) ++ B1)
      with ((A1 ++ H1) ++ "{{query}}" ++ (H2 ++ B1))
      by now rewrite !append_assoc.
    rewrite (replace_around "{{agent_scratchpad}}" scratchpad "{{query}}"
               _ _ eq_refl (scratchpad_scan_passes_query scratchpad)).
    now rewrite (replace_every_occurrence "{{query}}" query_prompt _ _ eq_refl).
  - intros self system_prompt X Y S1 S2 Hsys Htext Hscratchpad.
    rewrite (organize_prompt_messages_assembled is_final self _ Hsys).
    unfold scratchpad_query_passes. rewrite Htext.
    rewrite (replace_every_occurrence "{{agent_scratchpad}}" _ X Y eq_refl).
    remember (replace X "{{agent_scratchpad}}"
                (organize_scratchpad is_final (_agent_scratchpad self))) as X1.
    remember (replace Y "{{agent_scratchpad}}"
                (organize_scratchpad is_final (_agent_scratchpad self))) as Y1.
    rewrite Hscratchpad.
    replace (X1 ++ (S1 ++ "{{query}}" ++ S2) ++ Y1)
      with ((X1 ++ S1) ++ "{{query}}" ++ (S2 ++ Y1))
      by now rewrite !append_assoc.
    now rewrite (replace_every_occurrence "{{query}}" _ _ _ eq_refl).
Qed.

Lemma C9_sequential_replacement_witness :
  _organize_prompt_messages Fixtures.final_without_action
    Fixtures.quoting_runner
  = Return
      [UserPromptMessage
         (ContentSeq
            [TextPromptMessageContent
               ("Instructions: Write calculator, weather in your template."
                ++ LF ++ "Chat history:" ++ LF
                ++ "Question: What does Question: What is 2+2? mean?"
                ++ LF ++ LF ++ "End")])].
Proof.
  exact (proj1 (proj2 (proj2 (proj2 (proj2
           (C9_sequential_replacement Fixtures.final_without_action)))))
           Fixtures.quoting_runner
           ("Instructions: Write calculator, weather in your template."
            ++ LF ++ "Chat history:" ++ LF)
           "End"
           "Question: What does " (" mean?" ++ LF ++ LF)
           eq_refl eq_refl).
Defined.

(** The instruction of [Fixtures.quoting_runner] and its history transcript
    are not in its prompt as they were inserted. *)
Example quoted_material_not_verbatim :
  exists text,
    _organize_prompt_messages Fixtures.final_without_action
      Fixtures.quoting_runner
    = Return [UserPromptMessage (ContentSeq [TextPromptMessageContent text])]
    /\ contains text (_instruction Fixtures.quoting_runner) = false
    /\ contains text (_organize_historic_prompt Fixtures.quoting_runner)
       = false.
Proof. eexists. split; [reflexivity|]. split; reflexivity. Qed.

(** A token in a tool description and a token in a thought are replaced
    too. *)
Example quoted_in_catalog :
  _organize_instruction_prompt
    (Fixtures.with_tools
       (Fixtures.with_config Fixtures.base_runner
          (Fixtures.config_with "Tools: {{tools}}"))
       [Fixtures.quoting_tool])
  = Return
      ("Tools: [{" ++ Json.dumps_str "name" ++ ": " ++ Json.dumps_str "echo"
       ++ ", " ++ Json.dumps_str "description" ++ ": "
       ++ Json.dumps_str "Prints echo back"
       ++ ", " ++ Json.dumps_str "parameters" ++ ": {}}]").
Proof. reflexivity. Qed.

Example quoted_in_scratchpad :
  _organize_prompt_messages Fixtures.final_without_action
    (Fixtures.with_scratchpad
       (Fixtures.with_config Fixtures.base_runner
          (Fixtures.config_with "{{agent_scratchpad}}"))
       (Some [Fixtures.quoting_unit]))
  = Return
      [UserPromptMessage
         (ContentSeq
            [TextPromptMessageContent
               ("Thought: The user wrote Question: What is 2+2?"
                ++ LF ++ LF)])].
Proof. reflexivity. Qed.

(* ================================================================== *)
(** * Facts about [contains] *)
(* ================================================================== *)

Lemma prefix_exists (p s : string) :
  prefix p s = true -> exists Y, s = p ++ Y.
Proof.
  revert p. induction s as [|a s IH]; intros [|b p] H; simpl in H;
    try discriminate.
  - now exists EmptyString.
  - now exists (String a s).
  - destruct (ascii_dec b a) as [->|]; [|discriminate].
    destruct (IH p H) as [Y ->]. now exists Y.
Qed.

Lemma contains_prefix (s sub : string) :
  prefix sub s = true -> contains s sub = true.
Proof. intro H. destruct s; cbn [contains]; now rewrite H. Qed.

(** [sub in s] holds exactly when [s] is some text, [sub], some text. *)
Lemma contains_split (s sub : string) :
  contains s sub = true -> exists X Y, s = X ++ sub ++ Y.
Proof.
  induction s as [|a s IH]; cbn [contains]; intro H.
  - rewrite orb_false_r in H. apply prefix_exists in H as [Y HY].
    exists EmptyString, Y. exact HY.
  - apply orb_prop in H as [H|H].
    + apply prefix_exists in H as [Y HY]. exists EmptyString, Y. exact HY.
    + destruct (IH H) as [X [Y ->]]. now exists (String a X), Y.
Qed.

Lemma contains_mid (X sub Y : string) : contains (X ++ sub ++ Y) sub = true.
Proof.
  induction X as [|a X IH].
  - rewrite append_nil_l. apply contains_prefix, prefix_append.
  - cbn [append contains]. rewrite IH. apply orb_true_r.
Qed.

Lemma contains_trans (s t u : string) :
  contains s t = true -> contains t u = true -> contains s u = true.
Proof.
  intros Hst Htu.
  apply contains_split in Hst as [X [Y ->]].
  apply contains_split in Htu as [X' [Y' ->]].
  replace (X ++ (X' ++ u ++ Y') ++ Y) with ((X ++ X') ++ u ++ (Y' ++ Y))
    by now rewrite !append_assoc.
  apply contains_mid.
Qed.

Lemma contains_refl (s : string) : contains s s = true.
Proof. apply contains_prefix, prefix_refl. Qed.

(** Every item of a joined list is in the joined text. *)
Lemma contains_join (sep : string) (items : list string) (x : string) :
  In x items -> contains (join sep items) x = true.
Proof.
  unfold join. induction items as [|a items IH]; intro H; [contradiction|].
  destruct items as [|b items].
  - destruct H as [->|[]]. apply contains_refl.
  - change (String.concat sep (a :: b :: items))
      with (a ++ sep ++ String.concat sep (b :: items)).
    destruct H as [->|H].
    + apply (contains_mid EmptyString).
    + specialize (IH H). apply contains_split in IH as [X [Y ->]].
      replace (a ++ sep ++ X ++ x ++ Y) with ((a ++ sep ++ X) ++ x ++ Y)
        by now rewrite !append_assoc.
      apply contains_mid.
Qed.

(** A pass keeps a segment it cannot reach into and passes over. *)
Lemma replace_preserves (old new t s : string) :
  clear_of old t = true ->
  (forall Z, replace (t ++ Z) old new = t ++ replace Z old new) ->
  contains s t = true -> contains (replace s old new) t = true.
Proof.
  intros Hclear Hpass H. apply contains_split in H as [X [Y ->]].
  rewrite (replace_around old new t X Y Hclear Hpass).
  apply contains_mid.
Qed.

(** A pass that meets its token leaves the replacement text in the
    result. *)
Lemma replace_lands (old new s : string) :
  clear_of old old = true ->
  contains s old = true -> contains (replace s old new) new = true.
Proof.
  intros Hclear H. apply contains_split in H as [X [Y ->]].
  rewrite (replace_every_occurrence old new X Y Hclear).
  apply contains_mid.
Qed.

(** The scans of the other passes pass over the tokens below. *)
Lemma instruction_scan_passes_tool_names (new X : string) :
  replace ("{{tool_names}}" ++ X) "{{instruction}}" new
  = "{{tool_names}}" ++ replace X "{{instruction}}" new.
Proof. reflexivity. Qed.

Lemma instruction_scan_passes_tools (new X : string) :
  replace ("{{tools}}" ++ X) "{{instruction}}" new
  = "{{tools}}" ++ replace X "{{instruction}}" new.
Proof. reflexivity. Qed.

Lemma instruction_scan_passes_query (new X : string) :
  replace ("{{query}}" ++ X) "{{instruction}}" new
  = "{{query}}" ++ replace X "{{instruction}}" new.
Proof. reflexivity. Qed.

Lemma tools_scan_passes_query (new X : string) :
  replace ("{{query}}" ++ X) "{{tools}}" new
  = "{{query}}" ++ replace X "{{tools}}" new.
Proof. reflexivity. Qed.

Lemma tool_names_scan_passes_query (new X : string) :
  replace ("{{query}}" ++ X) "{{tool_names}}" new
  = "{{query}}" ++ replace X "{{tool_names}}" new.
Proof. reflexivity. Qed.

Lemma historic_scan_passes_query (new X : string) :
  replace ("{{query}}" ++ X) "{{historic_messages}}" new
  = "{{query}}" ++ replace X "{{historic_messages}}" new.
Proof. reflexivity. Qed.

(** The two later passes of the instruction prompt keep [{{query}}]. *)
Lemma tools_passes_keep_query (text : string)
  (tools : list PromptMessageTool) :
  contains text "{{query}}" = true ->
  contains (tools_passes text tools) "{{query}}" = true.
Proof.
  intro H. unfold tools_passes.
  apply (replace_preserves "{{tool_names}}" _ "{{query}}" _ eq_refl
           (tool_names_scan_passes_query _)).
  now apply (replace_preserves "{{tools}}" _ "{{query}}" _ eq_refl
               (tools_scan_passes_query _)).
Qed.

(** A system prompt with [{{query}}] gets the query line. *)
Lemma assembly_lands_query
  (system_prompt historic_prompt assistant_prompt query_prompt : string) :
  contains system_prompt "{{query}}" = true ->
  contains
    (scratchpad_query_passes
       (replace system_prompt "{{historic_messages}}" historic_prompt)
       assistant_prompt query_prompt)
    query_prompt = true.
Proof.
  intro H. unfold scratchpad_query_passes.
  apply (replace_lands "{{query}}" _ _ eq_refl).
  apply (replace_preserves "{{agent_scratchpad}}" _ "{{query}}" _ eq_refl
           (scratchpad_scan_passes_query _)).
  now apply (replace_preserves "{{historic_messages}}" _ "{{query}}" _ eq_refl
               (historic_scan_passes_query _)).
Qed.

(* ================================================================== *)
(** * More on the history transcript *)
(* ================================================================== *)

(** X1: in the history transcript an assistant message with a plain string
    [s] contributes [s] and a blank line, without any prefix; with a
    sequence of parts, the text-part values joined by one space and a blank
    line; with a single text part of value [v], [v] and a blank line; with
    null content or a single part that is not text, nothing. *)
Theorem X1_assistant_message_block (self : CotCompletionAgentRunner)
  (before after : list PromptMessage) (content : MessageContent) :
  history_prompt_messages self
  = Some (before ++ AssistantPromptMessage content :: after)%list ->
  _organize_historic_prompt self
  = concat_all (map message_block before)
    ++ match content with
       | ContentStr s => s ++ LF ++ LF
       | ContentSeq parts => join " " (text_values parts) ++ LF ++ LF
       | ContentPart (TextPromptMessageContent v) => v ++ LF ++ LF
       | ContentPart (ImagePromptMessageContent _) => EmptyString
       | ContentNone => EmptyString
       end
    ++ concat_all (map message_block after).
Proof.
  intro H. rewrite (historic_prompt_split self before after _ H).
  do 2 f_equal.
  destruct content as [|s|parts|[v|v]]; unfold message_block; simpl;
    try reflexivity.
  now rewrite text_parts_values.
Qed.

Lemma X1_assistant_message_block_witness :
  _organize_historic_prompt
    (Fixtures.with_history Fixtures.base_runner
       (Some [UserPromptMessage (ContentStr "What's the weather?");
              AssistantPromptMessage
                (ContentSeq [TextPromptMessageContent "Let me check.";
                             ImagePromptMessageContent "map.png";
                             TextPromptMessageContent "One moment."])]))
  = "Question: What's the weather?" ++ LF ++ LF
    ++ "Let me check. One moment." ++ LF ++ LF.
Proof.
  exact (X1_assistant_message_block
           (Fixtures.with_history Fixtures.base_runner
              (Some [UserPromptMessage (ContentStr "What's the weather?");
                     AssistantPromptMessage
                       (ContentSeq
                          [TextPromptMessageContent "Let me check.";
                           ImagePromptMessageContent "map.png";
                           TextPromptMessageContent "One moment."])]))
           [UserPromptMessage (ContentStr "What's the weather?")] []
           (ContentSeq [TextPromptMessageContent "Let me check.";
                        ImagePromptMessageContent "map.png";
                        TextPromptMessageContent "One moment."])
           eq_refl).
Defined.

Lemma silent_block (message : PromptMessage) :
  silent message = true -> message_block message = EmptyString.
Proof.
  destruct message as [c|c|c|c]; destruct c as [|s|parts|[v|v]];
    simpl; intro H; try discriminate; reflexivity.
Qed.

(** A message that is not silent adds a block that ends with a blank
    line. *)
Lemma loud_block (message : PromptMessage) :
  silent message = false ->
  exists body, message_block message = body ++ LF ++ LF.
Proof.
  unfold message_block.
  destruct message as [c|c|c|c]; destruct c as [|s|parts|[v|v]];
    simpl; intro H; try discriminate.
  - now exists ("Question: " ++ s).
  - now exists ("Question: " ++ join " " (text_parts parts)).
  - now exists s.
  - now exists (join " " (text_parts parts)).
  - now exists v.
  - now exists ("Tool Response: " ++ s).
  - now exists ("Tool Response: " ++ v).
Qed.

Lemma transcript_without_silent (messages : list PromptMessage) :
  concat_all
    (map message_block (filter (fun m => negb (silent m)) messages))
  = concat_all (map message_block messages).
Proof.
  induction messages as [|m messages IH]; [reflexivity|].
  cbn [filter map]. destruct (silent m) eqn:Hm; cbn [negb].
  - rewrite concat_all_cons, (silent_block m Hm). exact IH.
  - cbn [map]. now rewrite !concat_all_cons, IH.
Qed.

Lemma historic_prompt_of (self : CotCompletionAgentRunner)
  (messages : list PromptMessage) :
  history_prompt_messages self = Some messages ->
  _organize_historic_prompt self = concat_all (map message_block messages).
Proof.
  intro H. unfold _organize_historic_prompt.
  now rewrite H, or_empty_Some, historic_loop.
Qed.

(** X2: messages for which no branch of the loop appends anything
    (unrecognized variants, null content, a single part on a user message,
    a sequence of parts on a tool message, a single part that is not text)
    can be removed from the history without changing the transcript. *)
Theorem X2_silent_messages_leave_no_trace
  (self self' : CotCompletionAgentRunner) (messages : list PromptMessage) :
  history_prompt_messages self = Some messages ->
  history_prompt_messages self'
  = Some (filter (fun m => negb (silent m)) messages) ->
  _organize_historic_prompt self' = _organize_historic_prompt self.
Proof.
  intros H H'.
  rewrite (historic_prompt_of self _ H), (historic_prompt_of self' _ H').
  apply transcript_without_silent.
Qed.

Lemma X2_silent_messages_leave_no_trace_witness :
  _organize_historic_prompt
    (Fixtures.with_history Fixtures.base_runner
       (Some [UserPromptMessage (ContentStr "What's the weather?");
              AssistantPromptMessage (ContentStr "It's sunny today!")]))
  = _organize_historic_prompt
      (Fixtures.with_history Fixtures.base_runner
         (Some Cases.padded_history)).
Proof.
  exact (X2_silent_messages_leave_no_trace
           (Fixtures.with_history Fixtures.base_runner
              (Some Cases.padded_history))
           (Fixtures.with_history Fixtures.base_runner
              (Some [UserPromptMessage (ContentStr "What's the weather?");
                     AssistantPromptMessage
                       (ContentStr "It's sunny today!")]))
           Cases.padded_history eq_refl eq_refl).
Defined.

(** X3: the transcript of a history made of two parts is the transcript of
    the first part followed by the transcript of the second. *)
Theorem X3_historic_prompt_of_appended_histories
  (self self1 self2 : CotCompletionAgentRunner)
  (first second : list PromptMessage) :
  history_prompt_messages self1 = Some first ->
  history_prompt_messages self2 = Some second ->
  history_prompt_messages self = Some (first ++ second)%list ->
  _organize_historic_prompt self
  = _organize_historic_prompt self1 ++ _organize_historic_prompt self2.
Proof.
  intros H1 H2 H.
  rewrite (historic_prompt_of self _ H), (historic_prompt_of self1 _ H1),
    (historic_prompt_of self2 _ H2).
  now rewrite map_app, concat_all_app.
Qed.

Lemma X3_historic_prompt_of_appended_histories_witness :
  _organize_historic_prompt
    (Fixtures.with_history Fixtures.base_runner
       (Some Fixtures.weather_history))
  = _organize_historic_prompt
      (Fixtures.with_history Fixtures.base_runner
         (Some [UserPromptMessage (ContentStr "What's the weather?");
                AssistantPromptMessage
                  (ContentStr "Let me check that for you.")]))
    ++ _organize_historic_prompt
         (Fixtures.with_history Fixtures.base_runner
            (Some [ToolPromptMessage (ContentStr "The weather is sunny.");
                   AssistantPromptMessage (ContentStr "It's sunny today!")])).
Proof.
  exact (X3_historic_prompt_of_appended_histories
           (Fixtures.with_history Fixtures.base_runner
              (Some Fixtures.weather_history))
           (Fixtures.with_history Fixtures.base_runner
              (Some [UserPromptMessage (ContentStr "What's the weather?");
                     AssistantPromptMessage
                       (ContentStr "Let me check that for you.")]))
           (Fixtures.with_history Fixtures.base_runner
              (Some [ToolPromptMessage (ContentStr "The weather is sunny.");
                     AssistantPromptMessage
                       (ContentStr "It's sunny today!")]))
           _ _ eq_refl eq_refl eq_refl).
Defined.

Lemma transcript_shape (messages : list PromptMessage) :
  (forallb silent messages = true
   /\ concat_all (map message_block messages) = EmptyString)
  \/ (forallb silent messages = false
      /\ exists body,
          concat_all (map message_block messages) = body ++ LF ++ LF).
Proof.
  induction messages as [|m messages IH]; [now left|].
  cbn [forallb map]. rewrite concat_all_cons.
  destruct (silent m) eqn:Hm; cbn [andb].
  - rewrite (silent_block m Hm). exact IH.
  - right. split; [reflexivity|].
    destruct (loud_block m Hm) as [b ->].
    destruct IH as [[_ ->]|[_ [b' ->]]].
    + exists b. now rewrite append_nil_r.
    + exists (b ++ LF ++ LF ++ b'). now rewrite !append_assoc.
Qed.

(** X4: the transcript is empty exactly when every message of the history
    is one the loop appends nothing for (in particular for an absent or
    empty history); otherwise it ends with a blank line. *)
Theorem X4_historic_prompt_ends_with_blank_line
  (self : CotCompletionAgentRunner) :
  (forallb silent (or_empty (history_prompt_messages self)) = true
   /\ _organize_historic_prompt self = EmptyString)
  \/ (forallb silent (or_empty (history_prompt_messages self)) = false
      /\ exists body, _organize_historic_prompt self = body ++ LF ++ LF).
Proof.
  unfold _organize_historic_prompt. rewrite historic_loop.
  apply transcript_shape.
Qed.

Lemma no_text_part_text_parts (parts : list PromptMessageContent) :
  no_text_part parts = true -> text_parts parts = [].
Proof.
  unfold no_text_part.
  induction parts as [|[d|d] parts IH]; simpl; intro H;
    [reflexivity | discriminate | now apply IH].
Qed.

(** X5: a sequence of parts without any text part (the empty sequence, or
    images only) is not skipped as null content is: on a user message it
    still adds the line "Question: " with nothing after the space, and a
    blank line; on an assistant message it adds a bare blank line. *)
Theorem X5_sequence_without_text_still_renders
  (parts : list PromptMessageContent) :
  no_text_part parts = true ->
  (forall self before after,
      history_prompt_messages self
      = Some (before ++ UserPromptMessage (ContentSeq parts) :: after)%list ->
      _organize_historic_prompt self
      = concat_all (map message_block before)
        ++ ("Question: " ++ LF ++ LF)
        ++ concat_all (map message_block after))
  /\ (forall self before after,
      history_prompt_messages self
      = Some (before ++ AssistantPromptMessage (ContentSeq parts)
                     :: after)%list ->
      _organize_historic_prompt self
      = concat_all (map message_block before)
        ++ (LF ++ LF)
        ++ concat_all (map message_block after)).
Proof.
  intro Hparts. pose proof (no_text_part_text_parts parts Hparts) as Htext.
  split; intros self before after H;
    rewrite (historic_prompt_split self before after _ H);
    unfold message_block; cbn [historic_step]; now rewrite Htext.
Qed.

Lemma X5_sequence_without_text_still_renders_witness :
  _organize_historic_prompt
    (Fixtures.with_history Fixtures.base_runner
       (Some [UserPromptMessage
                (ContentSeq [ImagePromptMessageContent "photo.png"]);
              UserPromptMessage ContentNone]))
  = "Question: " ++ LF ++ LF.
Proof.
  exact (proj1
           (X5_sequence_without_text_still_renders
              [ImagePromptMessageContent "photo.png"] eq_refl)
           (Fixtures.with_history Fixtures.base_runner
              (Some [UserPromptMessage
                       (ContentSeq [ImagePromptMessageContent "photo.png"]);
                     UserPromptMessage ContentNone]))
           [] [UserPromptMessage ContentNone] eq_refl).
Defined.

(** X6: the transcript does not keep the roles apart.  An assistant message
    is written without a prefix, so an assistant message whose text is
    "Question: " followed by [s] gives the same transcript as a user message
    [s] at its place, and one whose text is "Tool Response: " followed by
    [s] the same as a tool message [s]. *)
Theorem X6_roles_are_not_recoverable
  (self_user self_tool self_assistant : CotCompletionAgentRunner)
  (before after : list PromptMessage) (s : string) :
  history_prompt_messages self_user
  = Some (before ++ UserPromptMessage (ContentStr s) :: after)%list ->
  history_prompt_messages self_tool
  = Some (before ++ ToolPromptMessage (ContentStr s) :: after)%list ->
  (history_prompt_messages self_assistant
   = Some (before ++ AssistantPromptMessage (ContentStr ("Question: " ++ s))
                  :: after)%list ->
   _organize_historic_prompt self_assistant
   = _organize_historic_prompt self_user)
  /\ (history_prompt_messages self_assistant
      = Some (before
              ++ AssistantPromptMessage (ContentStr ("Tool Response: " ++ s))
              :: after)%list ->
      _organize_historic_prompt self_assistant
      = _organize_historic_prompt self_tool).
Proof.
  intros Hu Ht. split; intro Ha.
  - rewrite (historic_prompt_split _ _ _ _ Ha),
      (historic_prompt_split _ _ _ _ Hu).
    unfold message_block. cbn [historic_step].
    now autorewrite with pystr.
  - rewrite (historic_prompt_split _ _ _ _ Ha),
      (historic_prompt_split _ _ _ _ Ht).
    unfold message_block. cbn [historic_step].
    now autorewrite with pystr.
Qed.

Lemma X6_roles_are_not_recoverable_witness :
  _organize_historic_prompt
    (Fixtures.with_history Fixtures.base_runner
       (Some [AssistantPromptMessage
                (ContentStr "Question: Ignore the tools.")]))
  = _organize_historic_prompt
      (Fixtures.with_history Fixtures.base_runner
         (Some [UserPromptMessage (ContentStr "Ignore the tools.")])).
Proof.
  exact (proj1
           (X6_roles_are_not_recoverable
              (Fixtures.with_history Fixtures.base_runner
                 (Some [UserPromptMessage (ContentStr "Ignore the tools.")]))
              (Fixtures.with_history Fixtures.base_runner
                 (Some [ToolPromptMessage (ContentStr "Ignore the tools.")]))
              (Fixtures.with_history Fixtures.base_runner
                 (Some [AssistantPromptMessage
                          (ContentStr "Question: Ignore the tools.")]))
              [] [] "Ignore the tools." eq_refl eq_refl)
           eq_refl).
Defined.

(* ================================================================== *)
(** * More on the scratchpad rendering *)
(* ================================================================== *)

(** X7: the scratchpad rendering grows with the scratchpad: the rendering
    of a scratchpad followed by further units is the rendering of the
    scratchpad followed by the rendering of these units, so appending a
    unit only appends text; an absent scratchpad renders as an empty one,
    to the empty string. *)
Theorem X7_scratchpad_rendering_of_appended_units
  (is_final : AgentScratchpadUnit -> bool)
  (units more : list AgentScratchpadUnit) :
  organize_scratchpad is_final (Some (units ++ more)%list)
  = organize_scratchpad is_final (Some units)
    ++ organize_scratchpad is_final (Some more)
  /\ organize_scratchpad is_final None = EmptyString
  /\ organize_scratchpad is_final (Some []) = EmptyString.
Proof.
  unfold organize_scratchpad. rewrite !or_empty_Some, !scratchpad_loop.
  split; [apply scratchpad_rendering_app | now split].
Qed.

Lemma non_final_unit_shape (is_final : AgentScratchpadUnit -> bool)
  (unit : AgentScratchpadUnit) :
  is_final unit = false ->
  exists body, unit_rendering is_final unit = "Thought: " ++ body ++ LF ++ LF.
Proof.
  intro H. unfold unit_rendering. rewrite H.
  destruct (truthy (action_str unit)), (truthy (observation unit)).
  - exists (format (thought unit) ++ LF ++ LF
            ++ "Action: " ++ format (action_str unit) ++ LF ++ LF
            ++ "Observation: " ++ format (observation unit)).
    now autorewrite with pystr.
  - exists (format (thought unit) ++ LF ++ LF
            ++ "Action: " ++ format (action_str unit)).
    now autorewrite with pystr.
  - exists (format (thought unit) ++ LF ++ LF
            ++ "Observation: " ++ format (observation unit)).
    now autorewrite with pystr.
  - exists (format (thought unit)). now autorewrite with pystr.
Qed.

(** X8: a scratchpad in which no unit is final renders to the empty string
    when it has no unit, and otherwise to a text that starts with
    "Thought: " and ends with a blank line. *)
Theorem X8_scratchpad_in_progress_shape
  (is_final : AgentScratchpadUnit -> bool)
  (units : list AgentScratchpadUnit) :
  none_final is_final units = true ->
  (units = [] /\ organize_scratchpad is_final (Some units) = EmptyString)
  \/ (units <> []
      /\ exists body,
          organize_scratchpad is_final (Some units)
          = "Thought: " ++ body ++ LF ++ LF).
Proof.
  unfold organize_scratchpad, none_final.
  rewrite or_empty_Some, scratchpad_loop.
  induction units as [|unit units IH]; intro H; [now left|].
  right. split; [discriminate|].
  cbn [forallb] in H. apply andb_prop in H as [Hunit Hunits].
  rewrite negb_true_iff in Hunit.
  rewrite scratchpad_rendering_cons.
  destruct (non_final_unit_shape is_final unit Hunit) as [b ->].
  destruct (IH Hunits) as [[-> _]|[_ [b' ->]]].
  - exists b. cbn. now autorewrite with pystr.
  - exists (b ++ LF ++ LF ++ "Thought: " ++ b').
    now autorewrite with pystr.
Qed.

Lemma X8_scratchpad_in_progress_shape_witness :
  exists body,
    organize_scratchpad Fixtures.final_without_action
      (Some [Fixtures.calculator_unit; Fixtures.quoting_unit])
    = "Thought: " ++ body ++ LF ++ LF.
Proof.
  destruct (X8_scratchpad_in_progress_shape Fixtures.final_without_action
              [Fixtures.calculator_unit; Fixtures.quoting_unit] eq_refl)
    as [[H _]|[_ H]].
  - discriminate H.
  - exact H.
Defined.

(* ================================================================== *)
(** * More on the assembled prompt *)
(* ================================================================== *)

(** X9: [_organize_prompt_messages] raises exactly the errors of
    [_organize_instruction_prompt], whatever the history, the scratchpad
    and the query are: "Agent configuration is not set" exactly when the
    agent configuration is absent, "prompt entity is not set" exactly when
    it is present without prompt entity; it returns exactly when both are
    present. *)
Theorem X9_prompt_messages_errors (is_final : AgentScratchpadUnit -> bool)
  (self : CotCompletionAgentRunner) :
  (forall error,
      _organize_prompt_messages is_final self = Raise error
      <-> _organize_instruction_prompt self = Raise error)
  /\ (_organize_prompt_messages is_final self
      = Raise (ValueError "Agent configuration is not set")
      <-> agent (app_config self) = None)
  /\ (_organize_prompt_messages is_final self
      = Raise (ValueError "prompt entity is not set")
      <-> exists agent_entity,
          agent (app_config self) = Some agent_entity
          /\ prompt agent_entity = None)
  /\ ((exists messages,
          _organize_prompt_messages is_final self = Return messages)
      <-> exists agent_entity prompt_entity,
          agent (app_config self) = Some agent_entity
          /\ prompt agent_entity = Some prompt_entity).
Proof.
  unfold _organize_prompt_messages, _organize_instruction_prompt.
  destruct (agent (app_config self)) as [ae|].
  - destruct (prompt ae) as [pe|] eqn:Hp; cbn [bind].
    + repeat split; try discriminate.
      * intros [ae' [Ha Hp']]. injection Ha as <-. congruence.
      * intros _. now exists ae, pe.
      * intros _. eexists. reflexivity.
    + repeat split; try discriminate; try congruence.
      * intros _. now exists ae.
      * intros [messages H]. discriminate H.
      * intros [ae' [pe' [Ha Hp']]]. injection Ha as <-. congruence.
  - cbn [bind]. repeat split; try discriminate; try congruence.
    + intros [ae [Ha _]]. discriminate Ha.
    + intros [messages H]. discriminate H.
    + intros [ae [pe [Ha _]]]. discriminate Ha.
Qed.

Lemma X9_prompt_messages_errors_witness :
  _organize_prompt_messages Fixtures.final_without_action
    Cases.unconfigured_runner
  = Raise (ValueError "Agent configuration is not set").
Proof.
  exact (proj2
           (proj1 (proj2 (X9_prompt_messages_errors
                            Fixtures.final_without_action
                            Cases.unconfigured_runner)))
           eq_refl).
Defined.

(** X10: a token that is missing from the template is no error.  With none
    of [{{instruction}}], [{{tools}}] and [{{tool_names}}] in it, the
    template is returned unchanged, and the instruction text and the tool
    catalog are left out. *)
Theorem X10_template_without_tokens (self : CotCompletionAgentRunner)
  (agent_entity : AgentEntity) (prompt_entity : AgentPromptEntity) :
  agent (app_config self) = Some agent_entity ->
  prompt agent_entity = Some prompt_entity ->
  contains (first_prompt prompt_entity) "{{instruction}}" = false ->
  contains (first_prompt prompt_entity) "{{tools}}" = false ->
  contains (first_prompt prompt_entity) "{{tool_names}}" = false ->
  _organize_instruction_prompt self = Return (first_prompt prompt_entity).
Proof.
  intros Ha Hp Hi Ht Hn.
  rewrite (organize_instruction_prompt_configured self _ _ Ha Hp).
  unfold tools_passes.
  now rewrite (replace_absent _ _ _ Hi), (replace_absent _ _ _ Ht),
    (replace_absent _ _ _ Hn).
Qed.

Lemma X10_template_without_tokens_witness :
  _organize_instruction_prompt Cases.plain_runner
  = Return "You are a helpful AI assistant.".
Proof.
  exact (X10_template_without_tokens Cases.plain_runner _ _
           eq_refl eq_refl eq_refl eq_refl eq_refl).
Defined.

(** X11: likewise in the assembly.  When the instruction prompt holds none
    of [{{historic_messages}}], [{{agent_scratchpad}}] and [{{query}}], the
    text of the returned message is the instruction prompt itself: the
    history, the scratchpad and the query are silently left out. *)
Theorem X11_prompt_without_tokens (is_final : AgentScratchpadUnit -> bool)
  (self : CotCompletionAgentRunner) (system_prompt : string) :
  _organize_instruction_prompt self = Return system_prompt ->
  contains system_prompt "{{historic_messages}}" = false ->
  contains system_prompt "{{agent_scratchpad}}" = false ->
  contains system_prompt "{{query}}" = false ->
  _organize_prompt_messages is_final self
  = Return
      [UserPromptMessage
         (ContentSeq [TextPromptMessageContent system_prompt])].
Proof.
  intros Hsys Hh Hs Hq.
  rewrite (organize_prompt_messages_assembled is_final self _ Hsys).
  unfold scratchpad_query_passes.
  now rewrite (replace_absent _ _ _ Hh), (replace_absent _ _ _ Hs),
    (replace_absent _ _ _ Hq).
Qed.

Lemma X11_prompt_without_tokens_witness :
  _organize_prompt_messages Fixtures.final_without_action
    (Fixtures.with_scratchpad
       (Fixtures.with_history Cases.plain_runner
          (Some Fixtures.weather_history))
       (Some [Fixtures.calculator_unit]))
  = Return
      [UserPromptMessage
         (ContentSeq
            [TextPromptMessageContent "You are a helpful AI assistant."])].
Proof.
  exact (X11_prompt_without_tokens Fixtures.final_without_action
           (Fixtures.with_scratchpad
              (Fixtures.with_history Cases.plain_runner
                 (Some Fixtures.weather_history))
              (Some [Fixtures.calculator_unit]))
           _ eq_refl eq_refl eq_refl eq_refl).
Defined.

(* ================================================================== *)
(** * What reaches the prompt *)
(* ================================================================== *)

(** X12: when the template contains [{{tool_names}}], the rendered
    instruction prompt contains the tool names joined with a comma and a
    space, and so the name of every tool of the catalog, whatever the
    instruction text and the catalog are. *)
Theorem X12_tool_names_reach_the_prompt (self : CotCompletionAgentRunner)
  (agent_entity : AgentEntity) (prompt_entity : AgentPromptEntity) :
  agent (app_config self) = Some agent_entity ->
  prompt agent_entity = Some prompt_entity ->
  contains (first_prompt prompt_entity) "{{tool_names}}" = true ->
  exists rendered,
    _organize_instruction_prompt self = Return rendered
    /\ contains rendered (join ", " (map name (_prompt_messages_tools self)))
       = true
    /\ forall tool,
        In tool (_prompt_messages_tools self) ->
        contains rendered (name tool) = true.
Proof.
  intros Ha Hp Htoken.
  rewrite (organize_instruction_prompt_configured self _ _ Ha Hp).
  eexists. split; [reflexivity|].
  assert (Hnames :
    contains
      (tools_passes
         (replace (first_prompt prompt_entity) "{{instruction}}"
            (_instruction self))
         (_prompt_messages_tools self))
      (join ", " (map name (_prompt_messages_tools self))) = true).
  { unfold tools_passes.
    apply (replace_lands "{{tool_names}}" _ _ eq_refl).
    apply (replace_preserves "{{tools}}" _ "{{tool_names}}" _ eq_refl
             (tools_scan_passes_tool_names _)).
    now apply (replace_preserves "{{instruction}}" _ "{{tool_names}}" _
                 eq_refl (instruction_scan_passes_tool_names _)). }
  split; [exact Hnames|].
  intros tool Hin. apply (contains_trans _ _ _ Hnames).
  apply contains_join. now apply in_map.
Qed.

Lemma X12_tool_names_reach_the_prompt_witness :
  exists rendered,
    _organize_instruction_prompt Fixtures.base_runner = Return rendered
    /\ contains rendered "calculator, weather" = true
    /\ forall tool,
        In tool Fixtures.mock_prompt_tools ->
        contains rendered (name tool) = true.
Proof.
  exact (X12_tool_names_reach_the_prompt Fixtures.base_runner _ _
           eq_refl eq_refl eq_refl).
Defined.

(** The query line lands in the prompt as soon as [{{query}}] stands in the
    text after the instruction pass. *)
Lemma query_lands (is_final : AgentScratchpadUnit -> bool)
  (self : CotCompletionAgentRunner)
  (agent_entity : AgentEntity) (prompt_entity : AgentPromptEntity) :
  agent (app_config self) = Some agent_entity ->
  prompt agent_entity = Some prompt_entity ->
  contains
    (replace (first_prompt prompt_entity) "{{instruction}}"
       (_instruction self))
    "{{query}}" = true ->
  exists text,
    _organize_prompt_messages is_final self
    = Return [UserPromptMessage (ContentSeq [TextPromptMessageContent text])]
    /\ contains text ("Question: " ++ _query self) = true
    /\ contains text (_query self) = true.
Proof.
  intros Ha Hp Htoken.
  pose proof (organize_instruction_prompt_configured self _ _ Ha Hp) as Hsys.
  rewrite (organize_prompt_messages_assembled is_final self _ Hsys).
  eexists. split; [reflexivity|].
  assert (Hline :
    contains
      (scratchpad_query_passes
         (replace
            (tools_passes
               (replace (first_prompt prompt_entity) "{{instruction}}"
                  (_instruction self))
               (_prompt_messages_tools self))
            "{{historic_messages}}" (_organize_historic_prompt self))
         (organize_scratchpad is_final (_agent_scratchpad self))
         ("Question: " ++ _query self))
      ("Question: " ++ _query self) = true).
  { apply assembly_lands_query. now apply tools_passes_keep_query. }
  split; [exact Hline|].
  apply (contains_trans _ _ _ Hline).
  rewrite <- (append_nil_r (_query self)) at 1. apply contains_mid.
Qed.

(** X13: when the template contains [{{query}}], the assembled prompt
    contains the line "Question: " followed by the query, and so the query
    itself verbatim, whatever the instruction, the catalog, the history,
    the scratchpad and the query contain: no pass destroys the token and
    the query, inserted last, is not scanned again. *)
Theorem X13_query_reaches_the_prompt (is_final : AgentScratchpadUnit -> bool)
  (self : CotCompletionAgentRunner)
  (agent_entity : AgentEntity) (prompt_entity : AgentPromptEntity) :
  agent (app_config self) = Some agent_entity ->
  prompt agent_entity = Some prompt_entity ->
  contains (first_prompt prompt_entity) "{{query}}" = true ->
  exists text,
    _organize_prompt_messages is_final self
    = Return [UserPromptMessage (ContentSeq [TextPromptMessageContent text])]
    /\ contains text ("Question: " ++ _query self) = true
    /\ contains text (_query self) = true.
Proof.
  intros Ha Hp Htoken. apply (query_lands is_final self _ _ Ha Hp).
  now apply (replace_preserves "{{instruction}}" _ "{{query}}" _ eq_refl
               (instruction_scan_passes_query _)).
Qed.

Lemma X13_query_reaches_the_prompt_witness :
  exists text,
    _organize_prompt_messages Fixtures.final_without_action
      Fixtures.base_runner
    = Return [UserPromptMessage (ContentSeq [TextPromptMessageContent text])]
    /\ contains text "Question: What is 2+2?" = true
    /\ contains text "What is 2+2?" = true.
Proof.
  exact (X13_query_reaches_the_prompt Fixtures.final_without_action
           Fixtures.base_runner _ _ eq_refl eq_refl eq_refl).
Defined.

(** X14: the passes of the two methods compose.  A [{{query}}] token that
    stands in the instruction text, not in the template, is replaced by the
    assembly: when the template contains [{{instruction}}] and the
    instruction text contains [{{query}}], the assembled prompt contains the
    query line. *)
Theorem X14_query_token_in_the_instruction
  (is_final : AgentScratchpadUnit -> bool) (self : CotCompletionAgentRunner)
  (agent_entity : AgentEntity) (prompt_entity : AgentPromptEntity) :
  agent (app_config self) = Some agent_entity ->
  prompt agent_entity = Some prompt_entity ->
  contains (first_prompt prompt_entity) "{{instruction}}" = true ->
  contains (_instruction self) "{{query}}" = true ->
  exists text,
    _organize_prompt_messages is_final self
    = Return [UserPromptMessage (ContentSeq [TextPromptMessageContent text])]
    /\ contains text ("Question: " ++ _query self) = true
    /\ contains text (_query self) = true.
Proof.
  intros Ha Hp Htoken Hquery. apply (query_lands is_final self _ _ Ha Hp).
  apply (contains_trans _ (_instruction self)); [|exact Hquery].
  now apply (replace_lands "{{instruction}}" _ _ eq_refl).
Qed.

Lemma X14_query_token_in_the_instruction_witness :
  _organize_prompt_messages Fixtures.final_without_action
    Cases.query_in_instruction_runner
  = Return
      [UserPromptMessage
         (ContentSeq
            [TextPromptMessageContent
               ("Instructions: Answer this: Question: What is 2+2?" ++ LF)])]
  /\ exists text,
      _organize_prompt_messages Fixtures.final_without_action
        Cases.query_in_instruction_runner
      = Return
          [UserPromptMessage (ContentSeq [TextPromptMessageContent text])]
      /\ contains text "Question: What is 2+2?" = true
      /\ contains text "What is 2+2?" = true.
Proof.
  split; [reflexivity|].
  exact (X14_query_token_in_the_instruction Fixtures.final_without_action
           Cases.query_in_instruction_runner _ _
           eq_refl eq_refl eq_refl eq_refl).
Defined.

(* ================================================================== *)
(** * Inserted text that no later pass touches *)
(* ================================================================== *)

Lemma has_char_append (c : ascii) (s t : string) :
  has_char c (s ++ t) = has_char c s || has_char c t.
Proof.
  induction s as [|d s IH]; [reflexivity|].
  cbn [append has_char]. now rewrite IH, orb_assoc.
Qed.

Lemma last_is_has_char (c : ascii) (s : string) :
  last_is c s = true -> has_char c s = true.
Proof.
  induction s as [|d s IH]; [discriminate|].
  cbn [last_is has_char]. destruct s as [|e s].
  - intros ->. reflexivity.
  - intro H. rewrite (IH H). apply orb_true_r.
Qed.

Lemma prefix_other_head (c d : ascii) (p s : string) :
  Ascii.eqb c d = false -> prefix (String c p) (String d s) = false.
Proof.
  intro H. simpl. destruct (ascii_dec c d) as [->|_]; [|reflexivity].
  now rewrite Ascii.eqb_refl in H.
Qed.

(** A text without the first character of the token is copied. *)
Lemma replace_char_free (c : ascii) (o new A X : string) :
  has_char c A = false ->
  replace (A ++ X) (String c o) new = A ++ replace X (String c o) new.
Proof.
  unfold replace.
  induction A as [|a A IH]; intro H; [reflexivity|].
  cbn [has_char] in H. apply orb_false_elim in H as [Ha HA].
  cbn [append replace_scan].
  rewrite (prefix_other_head _ _ _ _ Ha).
  f_equal. now apply IH.
Qed.

(** A text that ends with a character the token does not have, and in
    which the token does not occur, is copied. *)
Lemma replace_keeps_segment (old new body : string) (c : ascii) :
  has_char c old = false ->
  contains (body ++ String c EmptyString) old = false ->
  forall Z,
    replace ((body ++ String c EmptyString) ++ Z) old new
    = (body ++ String c EmptyString) ++ replace Z old new.
Proof.
  intros Hc Habsent Z.
  destruct old as [|o1 o]; [now destruct body|].
  unfold replace. cbn [has_char] in Hc.
  apply orb_false_elim in Hc as [Hc1 Hc].
  induction body as [|a body IH].
  - cbn [append replace_scan].
    rewrite Ascii.eqb_sym in Hc1.
    now rewrite (prefix_other_head _ _ _ _ Hc1).
  - cbn [append contains] in Habsent.
    apply orb_false_elim in Habsent as [Hhere Hrest].
    cbn [append replace_scan].
    destruct (prefix (String o1 o)
                (String a ((body ++ String c EmptyString) ++ Z))) eqn:Hm.
    + exfalso.
      change (String a ((body ++ String c EmptyString) ++ Z))
        with (String a (body ++ String c EmptyString) ++ Z) in Hm.
      apply prefix_split in Hm as [Hin|[R [Hold _]]].
      * congruence.
      * assert (Hhas : has_char c (String o1 o) = true).
        { rewrite Hold. cbn [append has_char].
          rewrite !has_char_append. cbn [has_char].
          rewrite Ascii.eqb_refl. cbn [orb].
          now rewrite !orb_true_r. }
        cbn [has_char] in Hhas. rewrite Hc1, Hc in Hhas. discriminate.
    + f_equal. now apply IH.
Qed.

(** No occurrence of a token that ends with a closing brace can reach into
    a text [t] without closing brace that has a character [c] the token
    does not have. *)
Lemma suffixes_clear_plain (t rest : string) (c : ascii) :
  has_char "}" t = false ->
  has_char c t = true ->
  has_char c rest = false ->
  last_is "}" rest = true ->
  suffixes_clear t rest = true.
Proof.
  intros Hbrace Hct. induction rest as [|r rest IH]; [reflexivity|].
  intros Hc Hlast. cbn [suffixes_clear].
  assert (H1 : prefix (String r rest) t = false).
  { destruct (prefix (String r rest) t) eqn:Hp; [|reflexivity].
    apply prefix_exists in Hp as [Y HY].
    apply last_is_has_char in Hlast.
    rewrite HY, has_char_append, Hlast in Hbrace. discriminate. }
  assert (H2 : prefix t (String r rest) = false).
  { destruct (prefix t (String r rest)) eqn:Hp; [|reflexivity].
    apply prefix_exists in Hp as [Y HY].
    rewrite HY, has_char_append, Hct in Hc. discriminate. }
  rewrite H1, H2. cbn [negb andb].
  destruct rest as [|r' rest]; [reflexivity|].
  apply IH.
  - cbn [has_char] in Hc. now apply orb_false_elim in Hc as [_ Hc].
  - exact Hlast.
Qed.

(** A pass whose token starts with an opening and ends with a closing
    brace keeps a text without braces that has a character the token does
    not have. *)
Lemma replace_preserves_plain (o new t s : string) (c : ascii) :
  has_char "{" t = false ->
  has_char "}" t = false ->
  has_char c t = true ->
  has_char c o = false ->
  last_is "}" o = true ->
  contains s t = true ->
  contains (replace s (String "{" o) new) t = true.
Proof.
  intros Hopen Hclose Hct Hco Hlast.
  apply replace_preserves.
  - cbn [clear_of]. now apply (suffixes_clear_plain t o c).
  - intro Z. now apply replace_char_free.
Qed.

Lemma contains_nil (s : string) : contains s EmptyString = true.
Proof. apply contains_prefix, prefix_nil. Qed.

(** X15: when the template contains [{{tools}}] and the serialized catalog
    does not contain [{{tool_names}}], the rendered instruction prompt
    contains the serialized catalog verbatim, whatever the instruction text
    is. *)
Theorem X15_catalog_reaches_the_prompt (self : CotCompletionAgentRunner)
  (agent_entity : AgentEntity) (prompt_entity : AgentPromptEntity) :
  agent (app_config self) = Some agent_entity ->
  prompt agent_entity = Some prompt_entity ->
  contains (first_prompt prompt_entity) "{{tools}}" = true ->
  contains (Json.dumps (jsonable_encoder (_prompt_messages_tools self)))
    "{{tool_names}}" = false ->
  exists rendered,
    _organize_instruction_prompt self = Return rendered
    /\ contains rendered
         (Json.dumps (jsonable_encoder (_prompt_messages_tools self)))
       = true.
Proof.
  intros Ha Hp Htoken Hfree.
  rewrite (organize_instruction_prompt_configured self _ _ Ha Hp).
  eexists. split; [reflexivity|].
  unfold tools_passes. rewrite dumps_catalog in *.
  generalize dependent (join ", " (map tool_object (_prompt_messages_tools self))).
  intros J Hfree.
  apply (replace_preserves "{{tool_names}}" _ ("[" ++ J ++ "]") _ eq_refl).
  - intro Z.
    replace ("[" ++ J ++ "]") with (("[" ++ J) ++ String "]" EmptyString)
      in * by now rewrite append_assoc.
    now apply replace_keeps_segment.
  - apply (replace_lands "{{tools}}" _ _ eq_refl).
    now apply (replace_preserves "{{instruction}}" _ "{{tools}}" _ eq_refl
                 (instruction_scan_passes_tools _)).
Qed.

Lemma X15_catalog_reaches_the_prompt_witness :
  exists rendered,
    _organize_instruction_prompt Fixtures.base_runner = Return rendered
    /\ contains rendered
         ("[" ++ tool_object Fixtures.calculator ++ ", "
              ++ tool_object Fixtures.weather ++ "]")
       = true.
Proof.
  exact (X15_catalog_reaches_the_prompt Fixtures.base_runner _ _
           eq_refl eq_refl eq_refl eq_refl).
Defined.

(** X16: when the instruction prompt contains [{{historic_messages}}] and
    the history transcript has no brace in it, the assembled prompt
    contains the transcript verbatim, whatever the scratchpad and the query
    are. *)
Theorem X16_plain_transcript_reaches_the_prompt
  (is_final : AgentScratchpadUnit -> bool) (self : CotCompletionAgentRunner)
  (system_prompt : string) :
  _organize_instruction_prompt self = Return system_prompt ->
  contains system_prompt "{{historic_messages}}" = true ->
  has_char "{" (_organize_historic_prompt self) = false ->
  has_char "}" (_organize_historic_prompt self) = false ->
  exists text,
    _organize_prompt_messages is_final self
    = Return [UserPromptMessage (ContentSeq [TextPromptMessageContent text])]
    /\ contains text (_organize_historic_prompt self) = true.
Proof.
  intros Hsys Htoken Hopen Hclose.
  rewrite (organize_prompt_messages_assembled is_final self _ Hsys).
  eexists. split; [reflexivity|].
  assert (Hshape :
    _organize_historic_prompt self = EmptyString
    \/ has_char (ascii_of_nat 10) (_organize_historic_prompt self) = true).
  { unfold _organize_historic_prompt. rewrite historic_loop.
    destruct (transcript_shape (or_empty (history_prompt_messages self)))
      as [[_ ->]|[_ [body ->]]]; [now left|right].
    rewrite !has_char_append. cbn [LF has_char].
    rewrite Ascii.eqb_refl. cbn [orb]. now rewrite orb_true_r. }
  destruct Hshape as [Hempty|Hline].
  - match goal with |- contains ?x _ = true => generalize x end.
    intro text. rewrite Hempty. apply contains_nil.
  - unfold scratchpad_query_passes.
    apply (replace_preserves_plain "{query}}" _ _ _ (ascii_of_nat 10)
             Hopen Hclose Hline eq_refl eq_refl).
    apply (replace_preserves_plain "{agent_scratchpad}}" _ _ _
             (ascii_of_nat 10) Hopen Hclose Hline eq_refl eq_refl).
    now apply (replace_lands "{{historic_messages}}" _ _ eq_refl).
Qed.

Lemma X16_plain_transcript_reaches_the_prompt_witness :
  exists text,
    _organize_prompt_messages Fixtures.final_without_action
      (Fixtures.with_history Fixtures.base_runner
         (Some Fixtures.weather_history))
    = Return [UserPromptMessage (ContentSeq [TextPromptMessageContent text])]
    /\ contains text
         ("Question: What's the weather?" ++ LF ++ LF
          ++ "Let me check that for you." ++ LF ++ LF
          ++ "Tool Response: The weather is sunny." ++ LF ++ LF
          ++ "It's sunny today!" ++ LF ++ LF)
       = true.
Proof.
  exact (X16_plain_transcript_reaches_the_prompt
           Fixtures.final_without_action
           (Fixtures.with_history Fixtures.base_runner
              (Some Fixtures.weather_history))
           _ eq_refl eq_refl eq_refl eq_refl).
Defined.

(** X17: when the template contains [{{instruction}}] and the instruction
    text has no brace and has a space in it, the instruction text stands
    verbatim in the rendered instruction prompt and in the assembled
    prompt, whatever the catalog, the history, the scratchpad and the query
    are. *)
Theorem X17_plain_instruction_reaches_the_prompt
  (is_final : AgentScratchpadUnit -> bool) (self : CotCompletionAgentRunner)
  (agent_entity : AgentEntity) (prompt_entity : AgentPromptEntity) :
  agent (app_config self) = Some agent_entity ->
  prompt agent_entity = Some prompt_entity ->
  contains (first_prompt prompt_entity) "{{instruction}}" = true ->
  has_char "{" (_instruction self) = false ->
  has_char "}" (_instruction self) = false ->
  has_char " " (_instruction self) = true ->
  (exists rendered,
      _organize_instruction_prompt self = Return rendered
      /\ contains rendered (_instruction self) = true)
  /\ (exists text,
      _organize_prompt_messages is_final self
      = Return
          [UserPromptMessage (ContentSeq [TextPromptMessageContent text])]
      /\ contains text (_instruction self) = true).
Proof.
  intros Ha Hp Htoken Hopen Hclose Hspace.
  pose proof (organize_instruction_prompt_configured self _ _ Ha Hp) as Hsys.
  assert (Hrendered :
    contains
      (tools_passes
         (replace (first_prompt prompt_entity) "{{instruction}}"
            (_instruction self))
         (_prompt_messages_tools self))
      (_instruction self) = true).
  { unfold tools_passes.
    apply (replace_preserves_plain "{tool_names}}" _ _ _ " "%char
             Hopen Hclose Hspace eq_refl eq_refl).
    apply (replace_preserves_plain "{tools}}" _ _ _ " "%char
             Hopen Hclose Hspace eq_refl eq_refl).
    now apply (replace_lands "{{instruction}}" _ _ eq_refl). }
  split.
  - eexists. split; [exact Hsys | exact Hrendered].
  - rewrite (organize_prompt_messages_assembled is_final self _ Hsys).
    eexists. split; [reflexivity|].
    unfold scratchpad_query_passes.
    apply (replace_preserves_plain "{query}}" _ _ _ " "%char
             Hopen Hclose Hspace eq_refl eq_refl).
    apply (replace_preserves_plain "{agent_scratchpad}}" _ _ _ " "%char
             Hopen Hclose Hspace eq_refl eq_refl).
    now apply (replace_preserves_plain "{historic_messages}}" _ _ _ " "%char
                 Hopen Hclose Hspace eq_refl eq_refl).
Qed.

Lemma X17_plain_instruction_reaches_the_prompt_witness :
  exists text,
    _organize_prompt_messages Fixtures.final_without_action
      Fixtures.base_runner
    = Return [UserPromptMessage (ContentSeq [TextPromptMessageContent text])]
    /\ contains text "Help the user with their questions" = true.
Proof.
  exact (proj2
           (X17_plain_instruction_reaches_the_prompt
              Fixtures.final_without_action Fixtures.base_runner _ _
              eq_refl eq_refl eq_refl eq_refl eq_refl eq_refl)).
Defined.

(* ================================================================== *)
(** * Counting the occurrences of a text *)
(* ================================================================== *)





Section Occurrences.

Variable c : ascii.






End Occurrences.

(* ================================================================== *)
(** * The instruction text in the instruction prompt *)
(* ================================================================== *)




